(** * The bottom drawer's position state machine

    A shallow embedding of [src/bottomDrawer.tsx]: the handlers of the
    [BottomDrawer] component ([checkIfAvailable], [handleOpen],
    [handleClose], [handleSnapToIndex], [handleSnapToPosition],
    [onKeyboardChange], [findActiveInputInContent], the keyboard snapping
    effect and the two pan-responder callbacks) as computations in a small
    state-and-exception monad over the component's state, together with the
    choice of rendered content, the header press, and sequences of events
    over all entry points.

    Conventions.
    - Pixel quantities and snap indices are TypeScript [number]s; they are
      modelled as integers ([Z]).  A value that may be [undefined] (an
      out-of-range array read) or [NaN] (arithmetic on [undefined]) has type
      [jsnum].
    - [useState] cells and [useRef] cells are fields of one record; a field
      holds the value seen by the handlers of the latest render.
    - The host animation engine is not part of the component.  [start] on
      [animatedHeight] first stops the animation that is running, which
      calls the callback that animation was started with, with [finished]
      false; it then records the new animation as the running one and
      appends it to the effect log.  The end of the running animation is
      the step [animation_end], which calls its callback.
    - An exception thrown by a method or by the press handler reaches the
      caller; one thrown inside the keyboard effect unmounts the component.
    - [console.warn] and the calls of the [onOpen] / [onClose] props are
      entries of the effect log. *)

From Stdlib Require Import ZArith List String Bool Lia.
Import ListNotations.
Local Open Scope string_scope.
Local Open Scope list_scope.
Local Open Scope Z_scope.

(** ** JavaScript numbers that may be missing *)

Inductive jsnum : Type :=
| JNum (z : Z)
| JUndefined
| JNaN.

(** [a - b]: a number when both operands are numbers, [NaN] otherwise. *)
Definition js_sub (a b : jsnum) : jsnum :=
  match a, b with
  | JNum x, JNum y => JNum (x - y)
  | _, _ => JNaN
  end.

(** [arr[i]] for an integer [i]: [undefined] outside the array. *)
Definition js_index (arr : list Z) (i : Z) : jsnum :=
  if i <? 0 then JUndefined
  else match nth_error arr (Z.to_nat i) with
       | Some v => JNum v
       | None => JUndefined
       end.

(** [arr.length] *)
Definition js_length (arr : list Z) : Z := Z.of_nat (List.length arr).

(** ** Props, after destructuring with their defaults *)

(** The values of [./constants], which the component imports. *)
Record Constants : Type := {
  defaultOpenDuration : Z;
  defaultCloseDuration : Z;
  defaultInitialHeight : Z;
  defaultInitialIndex : Z;
  defaultSnapPoints : list Z;
  defaultSafeTopOffset : Z;
  screenHeight : Z
}.

(** A host function passed as a prop, known by a handle only. *)
Definition HostFn : Type := nat.

(** The props the handlers read, as the caller passes them. *)
Record BottomDrawerProps : Type := {
  p_onClose : option HostFn;
  p_openDuration : option Z;
  p_closeDuration : option Z;
  p_onOpen : option HostFn;
  p_initialHeight : option Z;
  p_openOnMount : option bool;
  p_snapPoints : option (list Z);
  p_initialIndex : option Z;
  p_enableSnapping : option bool;
  p_safeTopOffset : option Z
}.

(** The destructured props (lines 46-72). *)
Record Config : Type := {
  consts : Constants;
  onClose : option HostFn;
  openDuration : Z;
  closeDuration : Z;
  onOpen : option HostFn;
  initialHeight : Z;
  openOnMount : bool;
  snapPoints : list Z;
  initialIndex : Z;
  enableSnapping : bool;
  safeTopOffset : Z
}.

Definition or_default {A : Type} (o : option A) (d : A) : A :=
  match o with Some a => a | None => d end.

Definition destructure (K : Constants) (p : BottomDrawerProps) : Config := {|
  consts := K;
  onClose := p_onClose p;
  openDuration := or_default (p_openDuration p) (defaultOpenDuration K);
  closeDuration := or_default (p_closeDuration p) (defaultCloseDuration K);
  onOpen := p_onOpen p;
  initialHeight := or_default (p_initialHeight p) (defaultInitialHeight K);
  openOnMount := or_default (p_openOnMount p) false;
  snapPoints := or_default (p_snapPoints p) (defaultSnapPoints K);
  initialIndex := or_default (p_initialIndex p) (defaultInitialIndex K);
  enableSnapping := or_default (p_enableSnapping p) true;
  safeTopOffset := or_default (p_safeTopOffset p) (defaultSafeTopOffset K)
|}.

(** ** Animations on [animatedHeight] *)

Inductive EasingFn : Type :=
| EaseOutBack1   (* Easing.out(Easing.back(1)) *)
| EaseInEase.    (* Easing.in(Easing.ease) *)

Inductive AnimKind : Type :=
| Timing (easing : EasingFn) (duration : Z)
| Spring.

(** The closure given to [start]. *)
Inductive EndCallback : Type :=
| NoCallback
| OpenFinished     (* lines 98-102 *)
| CloseFinished.   (* lines 115-119 *)

Record Animation : Type := {
  kind : AnimKind;
  toValue : jsnum;
  callback : EndCallback
}.

Record AnimatedValue : Type := {
  value : jsnum;
  running : option Animation
}.

(** ** Component state *)

Inductive TriggerSource : Type := Internal | External.

Inductive Effect : Type :=
| ConsoleWarn (msg : string)
| HostCall (f : HostFn)
| AnimationStart (a : Animation).

Record Drawer : Type := {
  modalVisible : bool;                              (* useState, line 74 *)
  currentDrawerIndex : Z;                           (* useState, line 75 *)
  animatedHeight : AnimatedValue;                   (* useRef, line 76 *)
  lastPosition : jsnum;                             (* useRef, line 77 *)
  currentIndex : Z;                                 (* useRef, line 78 *)
  keyboardTriggerSource : option TriggerSource;     (* useState, line 80 *)
  effects : list Effect
}.

(** ** The monad: state, and exceptions that keep the state reached *)

Inductive Outcome (A : Type) : Type :=
| Returned (a : A)
| Thrown (msg : string).
Arguments Returned {A} a.
Arguments Thrown {A} msg.

Definition M (A : Type) : Type := Drawer -> Outcome A * Drawer.

Definition ret {A : Type} (a : A) : M A := fun s => (Returned a, s).

Definition bind {A B : Type} (m : M A) (k : A -> M B) : M B :=
  fun s =>
    match m s with
    | (Returned a, s') => k a s'
    | (Thrown msg, s') => (Thrown msg, s')
    end.

Definition throw {A : Type} (msg : string) : M A := fun s => (Thrown msg, s).

Definition gets {A : Type} (f : Drawer -> A) : M A := fun s => (Returned (f s), s).

Definition modify (f : Drawer -> Drawer) : M unit := fun s => (Returned tt, f s).

Declare Scope drawer_scope.
Delimit Scope drawer_scope with drawer.
Notation "x <- m ;; k" := (bind m (fun x => k))
  (at level 61, m at next level, right associativity) : drawer_scope.
Notation "m ;; k" := (bind m (fun _ => k))
  (at level 61, right associativity) : drawer_scope.
Local Open Scope drawer_scope.

Definition exec {A : Type} (m : M A) (s : Drawer) : Drawer := snd (m s).
Definition outcome {A : Type} (m : M A) (s : Drawer) : Outcome A := fst (m s).

Definition throws {A : Type} (m : M A) (s : Drawer) : bool :=
  match outcome m s with Thrown _ => true | Returned _ => false end.

(** ** Field updates *)

Definition setModalVisible (b : bool) : M unit :=
  modify (fun s =>
    {| modalVisible := b;
       currentDrawerIndex := currentDrawerIndex s;
       animatedHeight := animatedHeight s;
       lastPosition := lastPosition s;
       currentIndex := currentIndex s;
       keyboardTriggerSource := keyboardTriggerSource s;
       effects := effects s |}).

Definition setCurrentDrawerIndex (i : Z) : M unit :=
  modify (fun s =>
    {| modalVisible := modalVisible s;
       currentDrawerIndex := i;
       animatedHeight := animatedHeight s;
       lastPosition := lastPosition s;
       currentIndex := currentIndex s;
       keyboardTriggerSource := keyboardTriggerSource s;
       effects := effects s |}).

Definition set_animatedHeight (a : AnimatedValue) : M unit :=
  modify (fun s =>
    {| modalVisible := modalVisible s;
       currentDrawerIndex := currentDrawerIndex s;
       animatedHeight := a;
       lastPosition := lastPosition s;
       currentIndex := currentIndex s;
       keyboardTriggerSource := keyboardTriggerSource s;
       effects := effects s |}).

Definition set_lastPosition (v : jsnum) : M unit :=
  modify (fun s =>
    {| modalVisible := modalVisible s;
       currentDrawerIndex := currentDrawerIndex s;
       animatedHeight := animatedHeight s;
       lastPosition := v;
       currentIndex := currentIndex s;
       keyboardTriggerSource := keyboardTriggerSource s;
       effects := effects s |}).

Definition set_currentIndex (i : Z) : M unit :=
  modify (fun s =>
    {| modalVisible := modalVisible s;
       currentDrawerIndex := currentDrawerIndex s;
       animatedHeight := animatedHeight s;
       lastPosition := lastPosition s;
       currentIndex := i;
       keyboardTriggerSource := keyboardTriggerSource s;
       effects := effects s |}).

Definition setKeyboardTriggerSource (t : option TriggerSource) : M unit :=
  modify (fun s =>
    {| modalVisible := modalVisible s;
       currentDrawerIndex := currentDrawerIndex s;
       animatedHeight := animatedHeight s;
       lastPosition := lastPosition s;
       currentIndex := currentIndex s;
       keyboardTriggerSource := t;
       effects := effects s |}).

Definition emit (e : Effect) : M unit :=
  modify (fun s =>
    {| modalVisible := modalVisible s;
       currentDrawerIndex := currentDrawerIndex s;
       animatedHeight := animatedHeight s;
       lastPosition := lastPosition s;
       currentIndex := currentIndex s;
       keyboardTriggerSource := keyboardTriggerSource s;
       effects := effects s ++ [e] |}).

(** ** Host primitives *)

Definition console_warn (msg : string) : M unit := emit (ConsoleWarn msg).

(** [f && f()] for a prop that is a function or [null]. *)
Definition call_if_set (f : option HostFn) : M unit :=
  match f with
  | Some h => emit (HostCall h)
  | None => ret tt
  end.

(** ** The handlers of [BottomDrawer] *)

(** The second argument of [snapToPosition]. *)
Record SnapToPositionConfig : Type := {
  resetLastPosition : option bool
}.

(** Line 139: [const { resetLastPosition = true } = config || {}]. *)
Definition destructure_config (config : option SnapToPositionConfig) : bool :=
  or_default (match config with
              | Some c => resetLastPosition c
              | None => None
              end) true.

Section Handlers.

Variable cfg : Config.

Let SCREEN : Z := screenHeight (consts cfg).

(** The closures given to [start] (lines 98-102 and 115-119). *)
Definition run_callback (cb : EndCallback) (finished : bool) : M unit :=
  match cb with
  | NoCallback => ret tt
  | OpenFinished =>
      if finished then call_if_set (onOpen cfg) else ret tt
  | CloseFinished =>
      call_if_set (onClose cfg) ;;
      setModalVisible false ;;
      set_currentIndex 0
  end.

(** The running animation ends, finished by the host or stopped before its
    end: the value rests at the target when the animation finished, no
    animation is running any more, and the callback runs. *)
Definition animation_end (finished : bool) : M unit :=
  current <- gets animatedHeight ;;
  match running current with
  | None => ret tt
  | Some a =>
      set_animatedHeight
        {| value := if finished then toValue a else value current;
           running := None |} ;;
      run_callback (callback a) finished
  end.

(** [Animated.timing(animatedHeight, ...).start(cb)] and
    [Animated.spring(animatedHeight, ...).start(cb)]: the running animation
    is stopped, then the new one runs. *)
Definition animated_start (a : Animation) : M unit :=
  animation_end false ;;
  v <- gets (fun s => value (animatedHeight s)) ;;
  set_animatedHeight {| value := v; running := Some a |} ;;
  emit (AnimationStart a).

(** Lines 82-87. *)
Definition checkIfAvailable (index : Z) : bool :=
  if negb (enableSnapping cfg)
     || (js_length (snapPoints cfg) <=? index)
     || (index <? 0)
  then false
  else true.

(** Lines 89-103.  [sheetHeight] is [None] when the argument is omitted. *)
Definition handleOpen (sheetHeight : option Z) : M unit :=
  let sheetHeight := or_default sheetHeight (initialHeight cfg) in
  let _val :=
    if enableSnapping cfg
    then js_index (snapPoints cfg) (initialIndex cfg)
    else JNum sheetHeight in
  set_lastPosition _val ;;
  setModalVisible true ;;
  animated_start {| kind := Timing EaseOutBack1 (openDuration cfg);
                    toValue := js_sub (JNum SCREEN) _val;
                    callback := OpenFinished |}.

(** Lines 105-107. *)
Definition mount_effect : M unit :=
  if openOnMount cfg then handleOpen None else ret tt.

(** Lines 109-120. *)
Definition handleClose : M unit :=
  animated_start {| kind := Timing EaseInEase (closeDuration cfg);
                    toValue := JNum SCREEN;
                    callback := CloseFinished |}.

(** Lines 122-133. *)
Definition handleSnapToIndex (index : Z) : M unit :=
  if negb (checkIfAvailable index)
  then throw "Provided index is out of range of snapPoints!"
  else
    set_lastPosition (js_index (snapPoints cfg) index) ;;
    set_currentIndex index ;;
    setCurrentDrawerIndex index ;;
    animated_start {| kind := Spring;
                      toValue := js_sub (JNum SCREEN)
                                        (js_index (snapPoints cfg) index);
                      callback := NoCallback |}.

(** Lines 135-152.  [config] is [None] when the argument is omitted. *)
Definition handleSnapToPosition
    (position : Z) (config : option SnapToPositionConfig) : M unit :=
  let resetLastPosition := destructure_config config in
  visible <- gets modalVisible ;;
  if negb visible
  then console_warn
         "snapToPosition can be used only when bottom drawer is opened"
  else
    (if resetLastPosition then set_lastPosition (JNum position) else ret tt) ;;
    animated_start {| kind := Spring;
                      toValue := js_sub (JNum SCREEN) (JNum position);
                      callback := NoCallback |}.

(** Lines 171-175. *)
Definition findActiveInputInContent : M bool := ret false.

(** Lines 159-167: the callback handed to [useBottomDrawerKeyboard]. *)
Definition onKeyboardChange (isOpen : bool) : M unit :=
  if isOpen
  then
    activeInputIsInternal <- findActiveInputInContent ;;
    setKeyboardTriggerSource
      (Some (if activeInputIsInternal then Internal else External))
  else setKeyboardTriggerSource None.

(** Lines 178-188: the body of the keyboard snapping effect.
    [keyboardOpen] is the value returned by [useBottomDrawerKeyboard]. *)
Definition keyboard_snap_effect (keyboardOpen : bool) : M unit :=
  source <- gets keyboardTriggerSource ;;
  if keyboardOpen
  then match source with
       | Some External => handleSnapToIndex 0
       | Some Internal => handleSnapToIndex 1
       | None => ret tt
       end
  else ret tt.

(** Lines 193-200. *)
Definition onPanResponderMove (dy : Z) : M unit :=
  current <- gets currentIndex ;;
  if (dy <? - safeTopOffset cfg) && checkIfAvailable (current + 1)
  then handleSnapToIndex (current + 1)
  else if (dy >? safeTopOffset cfg) && checkIfAvailable (current - 1)
  then handleSnapToIndex (current - 1)
  else ret tt.

(** Lines 201-206. *)
Definition onPanResponderRelease : M unit :=
  last <- gets lastPosition ;;
  animated_start {| kind := Spring;
                    toValue := js_sub (JNum SCREEN) last;
                    callback := NoCallback |}.

(** Line 210. *)
Definition handleIsOpen : M bool := gets modalVisible.

(** Lines 74-80: the state of the first render. *)
Definition initial_state : Drawer := {|
  modalVisible := false;
  currentDrawerIndex := initialIndex cfg;
  animatedHeight := {| value := JNum SCREEN; running := None |};
  lastPosition := JNum (initialHeight cfg);
  currentIndex := initialIndex cfg;
  keyboardTriggerSource := None;
  effects := []
|}.

End Handlers.

(** The animation a state is running, and its target. *)
Definition target (s : Drawer) : option jsnum :=
  option_map toValue (running (animatedHeight s)).

Definition running_kind (s : Drawer) : option AnimKind :=
  option_map kind (running (animatedHeight s)).

(** The animations started between two states, read off the effect log. *)
Fixpoint started (es : list Effect) : list Animation :=
  match es with
  | [] => []
  | AnimationStart a :: es' => a :: started es'
  | _ :: es' => started es'
  end.

Fixpoint warnings (es : list Effect) : list string :=
  match es with
  | [] => []
  | ConsoleWarn m :: es' => m :: warnings es'
  | _ :: es' => warnings es'
  end.

Fixpoint host_calls (es : list Effect) : list HostFn :=
  match es with
  | [] => []
  | HostCall f :: es' => f :: host_calls es'
  | _ :: es' => host_calls es'
  end.

(** The in-range condition on an index. *)
Definition in_range (cfg : Config) (i : Z) : Prop :=
  0 <= i < js_length (snapPoints cfg).

(** The running animation, if any, was started by [close]. *)
Definition closing (s : Drawer) : bool :=
  match running (animatedHeight s) with
  | Some a =>
      match callback a with
      | CloseFinished => true
      | _ => false
      end
  | None => false
  end.

(** The host calls made when the animation running in [s] is stopped. *)
Definition superseded_calls (cfg : Config) (s : Drawer) : list Effect :=
  if closing s
  then match onClose cfg with
       | Some f => [HostCall f]
       | None => []
       end
  else [].

(** What [start] does to a state, as one update: a close animation that is
    stopped hides the drawer and resets the index ref on its way out. *)
Definition started_state (cfg : Config) (a : Animation) (s : Drawer)
  : Drawer :=
  {| modalVisible := if closing s then false else modalVisible s;
     currentDrawerIndex := currentDrawerIndex s;
     animatedHeight := {| value := value (animatedHeight s);
                          running := Some a |};
     lastPosition := lastPosition s;
     currentIndex := if closing s then 0 else currentIndex s;
     keyboardTriggerSource := keyboardTriggerSource s;
     effects := effects s ++ superseded_calls cfg s ++ [AnimationStart a] |}.

(** The spring that [snapToIndex(i)] starts. *)
Definition snap_spring (cfg : Config) (i : Z) : Animation :=
  {| kind := Spring;
     toValue := js_sub (JNum (screenHeight (consts cfg)))
                       (js_index (snapPoints cfg) i);
     callback := NoCallback |}.

(** What a successful [handleSnapToIndex] does, as one state update. *)
Definition snapped (cfg : Config) (i : Z) (s : Drawer) : Drawer :=
  {| modalVisible := if closing s then false else modalVisible s;
     currentDrawerIndex := i;
     animatedHeight := {| value := value (animatedHeight s);
                          running := Some (snap_spring cfg i) |};
     lastPosition := js_index (snapPoints cfg) i;
     currentIndex := if closing s then 0 else i;
     keyboardTriggerSource := keyboardTriggerSource s;
     effects := effects s ++ superseded_calls cfg s
                ++ [AnimationStart (snap_spring cfg i)] |}.

(** ** The rendered content and the entry points *)

(** Lines 236-271: the provider renders the fixed header when the rendered
    index is 0, and the caller's children otherwise. *)
Inductive Content : Type := Header | Children.

Definition render_content (s : Drawer) : Content :=
  if currentDrawerIndex s =? 0 then Header else Children.

(** Line 257: the [onPress] of the header's chevron. *)
Definition onHeaderPress (cfg : Config) : M unit := handleSnapToIndex cfg 1.

(** The ways the host reaches the component: the five methods of
    [bottomSheetMethods] (lines 212-218), the two pan handlers, the keyboard
    callback and effect, the header press, and the end of the running
    animation.  The numbers an event carries are integers: a call with a
    fractional index or with [NaN] is not an [Event]. *)
Inductive Event : Type :=
| EOpen (sheetHeight : option Z)
| EClose
| ESnapToIndex (index : Z)
| ESnapToPosition (position : Z) (config : option SnapToPositionConfig)
| EIsOpen
| EPanMove (dy : Z)
| EPanRelease
| EKeyboardChange (isOpen : bool)
| EKeyboardEffect (keyboardOpen : bool)
| EHeaderPress
| EAnimationEnd (finished : bool).

Definition step (cfg : Config) (e : Event) : M unit :=
  match e with
  | EOpen h => handleOpen cfg h
  | EClose => handleClose cfg
  | ESnapToIndex i => handleSnapToIndex cfg i
  | ESnapToPosition p c => handleSnapToPosition cfg p c
  | EIsOpen => _ <- handleIsOpen ;; ret tt
  | EPanMove dy => onPanResponderMove cfg dy
  | EPanRelease => onPanResponderRelease cfg
  | EKeyboardChange b => onKeyboardChange b
  | EKeyboardEffect b => keyboard_snap_effect cfg b
  | EHeaderPress => onHeaderPress cfg
  | EAnimationEnd finished => animation_end cfg finished
  end.

(** An exception that leaves the keyboard effect unmounts the component.
    One that leaves a method or the press handler goes to the caller, and
    the component lives on. *)
Definition unmounts (cfg : Config) (e : Event) (s : Drawer) : bool :=
  match e with
  | EKeyboardEffect _ => throws (step cfg e) s
  | _ => false
  end.

(** A sequence of events, up to the event that unmounts the component if
    there is one: the events after it do not reach the component, and the
    result is the state at the throw.  Any other event that throws leaves
    the state it had reached, and the next event acts on that state. *)
Fixpoint run_events (cfg : Config) (es : list Event) (s : Drawer) : Drawer :=
  match es with
  | [] => s
  | e :: es' =>
      if unmounts cfg e s
      then exec (step cfg e) s
      else run_events cfg es' (exec (step cfg e) s)
  end.

Definition is_open_event (e : Event) : bool :=
  match e with EOpen _ => true | _ => false end.

Definition is_close_event (e : Event) : bool :=
  match e with EClose => true | _ => false end.

Definition is_number (v : jsnum) : bool :=
  match v with JNum _ => true | _ => false end.

(** Every offset the state holds or has animated to is a number. *)
Definition numeric_state (s : Drawer) : bool :=
  is_number (lastPosition s)
  && is_number (value (animatedHeight s))
  && match running (animatedHeight s) with
     | Some a => is_number (toValue a)
     | None => true
     end
  && forallb (fun a => is_number (toValue a)) (started (effects s)).

(** ** Sample configuration *)

Definition sample_consts : Constants := {|
  defaultOpenDuration := 450;
  defaultCloseDuration := 300;
  defaultInitialHeight := 420;
  defaultInitialIndex := 0;
  defaultSnapPoints := [];
  defaultSafeTopOffset := 50;
  screenHeight := 800
|}.

Definition sample_props : BottomDrawerProps := {|
  p_onClose := Some 7%nat;
  p_openDuration := None;
  p_closeDuration := None;
  p_onOpen := Some 8%nat;
  p_initialHeight := None;
  p_openOnMount := Some true;
  p_snapPoints := Some [100; 300; 500];
  p_initialIndex := Some 1;
  p_enableSnapping := None;
  p_safeTopOffset := None
|}.

Definition sample_cfg : Config := destructure sample_consts sample_props.

(** Snapping switched off, with a non-zero initial index. *)
Definition no_snapping_cfg : Config :=
  destructure sample_consts
    {| p_onClose := None; p_openDuration := None; p_closeDuration := None;
       p_onOpen := None; p_initialHeight := None; p_openOnMount := None;
       p_snapPoints := Some [100; 300; 500];
       p_initialIndex := Some 1;
       p_enableSnapping := Some false; p_safeTopOffset := None |}.

(** One snap point only. *)
Definition single_point_cfg : Config :=
  destructure sample_consts
    {| p_onClose := None; p_openDuration := None; p_closeDuration := None;
       p_onOpen := None; p_initialHeight := None; p_openOnMount := None;
       p_snapPoints := Some [100];
       p_initialIndex := Some 0;
       p_enableSnapping := Some true; p_safeTopOffset := None |}.

(** An initial index past the end of the snap points. *)
Definition overshoot_cfg : Config :=
  destructure sample_consts
    {| p_onClose := None; p_openDuration := None; p_closeDuration := None;
       p_onOpen := None; p_initialHeight := None; p_openOnMount := None;
       p_snapPoints := Some [100; 300; 500];
       p_initialIndex := Some 3;
       p_enableSnapping := Some true; p_safeTopOffset := None |}.

(** A state whose recorded trigger source is [t]. *)
Definition with_source (t : option TriggerSource) (s : Drawer) : Drawer :=
  exec (setKeyboardTriggerSource t) s.

(** A configuration whose safe offset is negative. *)
Definition negative_offset_cfg : Config :=
  destructure sample_consts
    {| p_onClose := None; p_openDuration := None; p_closeDuration := None;
       p_onOpen := None; p_initialHeight := None; p_openOnMount := None;
       p_snapPoints := Some [100; 300; 500];
       p_initialIndex := Some 1;
       p_enableSnapping := None; p_safeTopOffset := Some (-10) |}.

(** The sample drawer, opened, then closing: [close()] has been called and
    its animation has not ended. *)
Definition closing_sample : Drawer :=
  run_events sample_cfg [EOpen None; EAnimationEnd true; EClose]
    (initial_state sample_cfg).

(** * Properties *)

(** ** Array reads and availability *)

Lemma js_index_in_range (arr : list Z) (i : Z) :
  0 <= i < js_length arr ->
  exists v, nth_error arr (Z.to_nat i) = Some v /\ js_index arr i = JNum v.
Proof.
  unfold js_length, js_index. intros [Hlo Hhi].
  destruct (Z.ltb_spec i 0) as [Hneg | _]; [lia |].
  destruct (nth_error arr (Z.to_nat i)) as [v |] eqn:Hnth.
  - exists v. split; reflexivity.
  - apply nth_error_None in Hnth. lia.
Qed.

Lemma js_index_out_of_range (arr : list Z) (i : Z) :
  ~ (0 <= i < js_length arr) -> js_index arr i = JUndefined.
Proof.
  unfold js_length, js_index. intros Hout.
  destruct (Z.ltb_spec i 0) as [_ | Hlo]; [reflexivity |].
  destruct (nth_error arr (Z.to_nat i)) as [v |] eqn:Hnth; [| reflexivity].
  assert (Hlt : (Z.to_nat i < List.length arr)%nat).
  { apply nth_error_Some. congruence. }
  lia.
Qed.

Lemma checkIfAvailable_true (cfg : Config) (i : Z) :
  checkIfAvailable cfg i = true <->
  enableSnapping cfg = true /\ in_range cfg i.
Proof.
  unfold checkIfAvailable, in_range.
  destruct (enableSnapping cfg); simpl;
    destruct (Z.leb_spec (js_length (snapPoints cfg)) i);
    destruct (Z.ltb_spec i 0); simpl;
    (split; [intros H'; first [discriminate H' | split; [reflexivity | lia]]
            | intros [H1 H2]; first [discriminate H1 | reflexivity | lia]]).
Qed.

Lemma checkIfAvailable_false (cfg : Config) (i : Z) :
  checkIfAvailable cfg i = false <->
  enableSnapping cfg = false \/ i < 0 \/ js_length (snapPoints cfg) <= i.
Proof.
  unfold checkIfAvailable.
  destruct (enableSnapping cfg); simpl;
    destruct (Z.leb_spec (js_length (snapPoints cfg)) i);
    destruct (Z.ltb_spec i 0); simpl;
    (split; [intros H';
             first [discriminate H' | left; reflexivity | right; lia]
            | intros [H' | H']; first [discriminate H' | reflexivity | lia]]).
Qed.

(** ** Starting and ending animations *)

(** Run the handlers of a goal symbolically, leaving arithmetic, array
    reads, the availability test, the effect log and [start] alone. *)
Ltac run :=
  cbv beta iota zeta delta
    [handleOpen mount_effect handleClose handleSnapToIndex
     handleSnapToPosition findActiveInputInContent onKeyboardChange
     keyboard_snap_effect onPanResponderMove onPanResponderRelease
     handleIsOpen run_callback animation_end destructure_config
     console_warn call_if_set emit onHeaderPress
     setModalVisible setCurrentDrawerIndex set_animatedHeight
     set_lastPosition set_currentIndex setKeyboardTriggerSource
     bind ret throw gets modify exec outcome throws
     target running_kind option_map or_default fst snd];
  cbn [modalVisible currentDrawerIndex animatedHeight lastPosition
       currentIndex keyboardTriggerSource effects
       value running kind toValue callback negb js_sub resetLastPosition].

(** Fields of a state built by [started_state] or [snapped]. *)
Ltac fields :=
  unfold snapped, started_state, snap_spring, superseded_calls, closing;
  cbn [modalVisible currentDrawerIndex animatedHeight lastPosition
       currentIndex keyboardTriggerSource effects
       value running kind toValue callback negb js_sub fst snd].

Lemma animated_start_spec (cfg : Config) (a : Animation) (s : Drawer) :
  animated_start cfg a s = (Returned tt, started_state cfg a s).
Proof.
  destruct s as [vis drawn [v [[k t cb] |]] last cur src log];
    unfold animated_start; run; fields; [| rewrite app_nil_l; reflexivity].
  destruct cb; run.
  - reflexivity.
  - reflexivity.
  - destruct (onClose cfg) as [f |]; run; rewrite <- ?app_assoc; reflexivity.
Qed.

Lemma animation_end_returns (cfg : Config) (finished : bool) (s : Drawer) :
  outcome (animation_end cfg finished) s = Returned tt.
Proof.
  run. destruct (running (animatedHeight s)) as [[k t cb] |]; run;
    [| reflexivity].
  destruct cb; run; try reflexivity.
  - destruct finished; [destruct (onOpen cfg) |]; reflexivity.
  - destruct (onClose cfg); reflexivity.
Qed.

Lemma handleSnapToIndex_available (cfg : Config) (i : Z) (s : Drawer) :
  checkIfAvailable cfg i = true ->
  handleSnapToIndex cfg i s = (Returned tt, snapped cfg i s).
Proof.
  intros Havail. unfold handleSnapToIndex. rewrite Havail. run.
  rewrite animated_start_spec. reflexivity.
Qed.

Lemma handleSnapToIndex_unavailable (cfg : Config) (i : Z) (s : Drawer) :
  checkIfAvailable cfg i = false ->
  handleSnapToIndex cfg i s =
  (Thrown "Provided index is out of range of snapPoints!", s).
Proof.
  intros Havail. unfold handleSnapToIndex. rewrite Havail. reflexivity.
Qed.

Lemma handleSnapToIndex_cases (cfg : Config) (i : Z) (s : Drawer) :
  (checkIfAvailable cfg i = false /\
   handleSnapToIndex cfg i s =
   (Thrown "Provided index is out of range of snapPoints!", s)) \/
  (checkIfAvailable cfg i = true /\
   handleSnapToIndex cfg i s = (Returned tt, snapped cfg i s)).
Proof.
  destruct (checkIfAvailable cfg i) eqn:Havail.
  - right. split; [reflexivity |].
    apply handleSnapToIndex_available; assumption.
  - left. split; [reflexivity |].
    apply handleSnapToIndex_unavailable; assumption.
Qed.

Lemma handleOpen_spec (cfg : Config) (h : option Z) (s : Drawer) :
  let _val := if enableSnapping cfg
              then js_index (snapPoints cfg) (initialIndex cfg)
              else JNum (match h with
                         | Some x => x
                         | None => initialHeight cfg
                         end) in
  handleOpen cfg h s =
  (Returned tt,
   started_state cfg
     {| kind := Timing EaseOutBack1 (openDuration cfg);
        toValue := js_sub (JNum (screenHeight (consts cfg))) _val;
        callback := OpenFinished |}
     (exec (setModalVisible true) (exec (set_lastPosition _val) s))).
Proof.
  run. rewrite animated_start_spec. reflexivity.
Qed.

Lemma handleClose_spec (cfg : Config) (s : Drawer) :
  handleClose cfg s =
  (Returned tt,
   started_state cfg
     {| kind := Timing EaseInEase (closeDuration cfg);
        toValue := JNum (screenHeight (consts cfg));
        callback := CloseFinished |} s).
Proof.
  run. rewrite animated_start_spec. reflexivity.
Qed.

Lemma onPanResponderRelease_spec (cfg : Config) (s : Drawer) :
  onPanResponderRelease cfg s =
  (Returned tt,
   started_state cfg
     {| kind := Spring;
        toValue := js_sub (JNum (screenHeight (consts cfg))) (lastPosition s);
        callback := NoCallback |} s).
Proof.
  run. rewrite animated_start_spec. reflexivity.
Qed.

Lemma handleSnapToPosition_visible
    (cfg : Config) (p : Z) (config : option SnapToPositionConfig)
    (s : Drawer) :
  modalVisible s = true ->
  handleSnapToPosition cfg p config s =
  (Returned tt,
   started_state cfg
     {| kind := Spring;
        toValue := JNum (screenHeight (consts cfg) - p);
        callback := NoCallback |}
     (if destructure_config config
      then exec (set_lastPosition (JNum p)) s
      else s)).
Proof.
  intros Hvisible.
  destruct s as [vis drawn av last cur src log].
  cbn [modalVisible] in Hvisible. subst vis.
  destruct config as [[[[|] |]] |]; run;
    rewrite animated_start_spec; reflexivity.
Qed.

Lemma host_calls_app (es es' : list Effect) :
  host_calls (es ++ es') = host_calls es ++ host_calls es'.
Proof.
  induction es as [| e es IH]; simpl; [reflexivity |].
  destruct e; simpl; rewrite IH; reflexivity.
Qed.

Lemma started_app (es es' : list Effect) :
  started (es ++ es') = started es ++ started es'.
Proof.
  induction es as [| e es IH]; simpl; [reflexivity |].
  destruct e; simpl; rewrite IH; reflexivity.
Qed.

Lemma started_superseded_calls (cfg : Config) (s : Drawer) :
  started (superseded_calls cfg s) = [].
Proof.
  unfold superseded_calls.
  destruct (closing s); [destruct (onClose cfg) |]; reflexivity.
Qed.

(** ** snapToIndex *)

(** C1.  For every index [i], [snapToIndex(i)] called when snapping is
    disabled, or when [i] is negative, or when [i >= snapPoints.length],
    throws, and the state reached at the throw is the state before the call:
    current index, last position, visibility and every other field are
    unchanged, and no animation was started. *)
Theorem snapToIndex_rejects_unavailable (cfg : Config) (i : Z) (s : Drawer) :
  enableSnapping cfg = false \/ i < 0 \/ js_length (snapPoints cfg) <= i ->
  throws (handleSnapToIndex cfg i) s = true /\
  outcome (handleSnapToIndex cfg i) s =
    Thrown "Provided index is out of range of snapPoints!" /\
  exec (handleSnapToIndex cfg i) s = s /\
  currentIndex (exec (handleSnapToIndex cfg i) s) = currentIndex s /\
  lastPosition (exec (handleSnapToIndex cfg i) s) = lastPosition s /\
  modalVisible (exec (handleSnapToIndex cfg i) s) = modalVisible s.
Proof.
  intros Hbad. apply checkIfAvailable_false in Hbad.
  unfold throws, outcome, exec.
  rewrite (handleSnapToIndex_unavailable cfg i s Hbad). simpl.
  repeat split; reflexivity.
Qed.

Lemma snapToIndex_rejects_unavailable_witness :
  throws (handleSnapToIndex sample_cfg 3) (initial_state sample_cfg) = true /\
  exec (handleSnapToIndex sample_cfg 3) (initial_state sample_cfg)
  = initial_state sample_cfg.
Proof.
  assert (Hbad : enableSnapping sample_cfg = false \/ 3 < 0 \/
                 js_length (snapPoints sample_cfg) <= 3).
  { right; right. vm_compute. discriminate. }
  destruct (snapToIndex_rejects_unavailable sample_cfg 3
              (initial_state sample_cfg) Hbad) as (Hthrow & _ & Hsame & _).
  split; assumption.
Defined.

(** What [snapToIndex(i)] does for an index in [[0, snapPoints.length)] with
    snapping enabled: it returns, sets the rendered index to [i] and
    [lastPosition] to [snapPoints[i]], and starts one spring animation to
    [screenHeight - snapPoints[i]].  When no close animation is running the
    index ref is [i] and visibility is unchanged; when one is running,
    stopping it runs the close callback, which hides the drawer and leaves
    the index ref at 0. *)
Lemma snapToIndex_in_range (cfg : Config) (i : Z) (s : Drawer) :
  enableSnapping cfg = true ->
  in_range cfg i ->
  exists p,
    nth_error (snapPoints cfg) (Z.to_nat i) = Some p /\
    outcome (handleSnapToIndex cfg i) s = Returned tt /\
    let s' := exec (handleSnapToIndex cfg i) s in
    let spring := {| kind := Spring;
                     toValue := JNum (screenHeight (consts cfg) - p);
                     callback := NoCallback |} in
    currentDrawerIndex s' = i /\
    lastPosition s' = JNum p /\
    running (animatedHeight s') = Some spring /\
    started (effects s') = started (effects s) ++ [spring] /\
    (closing s = false ->
     currentIndex s' = i /\
     modalVisible s' = modalVisible s /\
     effects s' = effects s ++ [AnimationStart spring]) /\
    (closing s = true ->
     currentIndex s' = 0 /\ modalVisible s' = false).
Proof.
  intros Hsnap Hrange.
  assert (Havail : checkIfAvailable cfg i = true).
  { apply checkIfAvailable_true. split; assumption. }
  destruct (js_index_in_range (snapPoints cfg) i Hrange) as (p & Hnth & Hidx).
  exists p. unfold outcome, exec.
  rewrite (handleSnapToIndex_available cfg i s Havail).
  cbn [fst snd]. unfold snapped, snap_spring.
  cbn [currentDrawerIndex lastPosition animatedHeight running effects
       currentIndex modalVisible].
  rewrite Hidx. cbn [js_sub].
  rewrite !started_app, started_superseded_calls.
  split; [assumption |]. split; [reflexivity |].
  repeat (split; [reflexivity |]). split.
  - intros Hno. unfold superseded_calls. rewrite Hno.
    repeat split; reflexivity.
  - intros Hyes. rewrite Hyes. split; reflexivity.
Qed.

(** C2, at the failing input.  The sample drawer is open at index 1 and
    [close()] has been called; [snapToIndex(2)] is called before the close
    animation ends.  Index 2 is in range and snapping is enabled, the call
    returns, and [lastPosition], the rendered index and the spring are those
    of index 2; but starting the spring stops the close animation, whose
    callback does not look at [finished]: [onClose] is called, the drawer
    is hidden and the index ref is 0, not 2. *)
Theorem snapToIndex_during_close :
  let s' := exec (handleSnapToIndex sample_cfg 2) closing_sample in
  enableSnapping sample_cfg = true /\
  in_range sample_cfg 2 /\
  modalVisible closing_sample = true /\
  currentIndex closing_sample = 1 /\
  closing closing_sample = true /\
  outcome (handleSnapToIndex sample_cfg 2) closing_sample = Returned tt /\
  lastPosition s' = JNum 500 /\
  currentDrawerIndex s' = 2 /\
  target s' = Some (JNum 300) /\
  currentIndex s' = 0 /\
  currentIndex s' <> 2 /\
  modalVisible s' = false /\
  host_calls (effects s') = [8%nat; 7%nat].
Proof.
  vm_compute. repeat split; try reflexivity; try discriminate.
Qed.

Example snapToIndex_sample :
  let s' := exec (handleSnapToIndex sample_cfg 2) (initial_state sample_cfg) in
  currentIndex s' = 2 /\ lastPosition s' = JNum 500 /\
  target s' = Some (JNum 300).
Proof. vm_compute. repeat split; reflexivity. Qed.

(** ** open and close *)

(** What [open(h)] does, for every height argument [h] (given or omitted):
    it returns and starts the open timing animation.  With snapping enabled
    it ignores [h]: [lastPosition] becomes [snapPoints[initialIndex]] and
    the target is [screenHeight - snapPoints[initialIndex]].  With snapping
    disabled it uses [h], or the configured initial height when [h] is
    omitted.  The drawer is visible afterwards, unless a close animation
    was running: stopping it runs the close callback after [open] has set
    visibility, and the drawer ends hidden. *)
Lemma open_targets_initial_snap_point
    (cfg : Config) (h : option Z) (s : Drawer) :
  let s' := exec (handleOpen cfg h) s in
  let snap := js_index (snapPoints cfg) (initialIndex cfg) in
  let height := match h with Some x => x | None => initialHeight cfg end in
  outcome (handleOpen cfg h) s = Returned tt /\
  modalVisible s' = negb (closing s) /\
  running_kind s' = Some (Timing EaseOutBack1 (openDuration cfg)) /\
  (enableSnapping cfg = true ->
     lastPosition s' = snap /\
     target s' = Some (js_sub (JNum (screenHeight (consts cfg))) snap)) /\
  (enableSnapping cfg = false ->
     lastPosition s' = JNum height /\
     target s' = Some (JNum (screenHeight (consts cfg) - height))).
Proof.
  unfold outcome, exec. rewrite handleOpen_spec. cbn [fst snd].
  unfold target, running_kind. fields. run.
  split; [reflexivity |].
  split; [destruct (closing s) eqn:Hc; unfold closing in Hc; rewrite Hc;
          reflexivity |].
  split; [reflexivity |].
  destruct (enableSnapping cfg); split; intros Hon;
    try discriminate Hon; split; reflexivity.
Qed.

(** The example of the specification: [snapPoints = [100, 300, 500]] and
    [initialIndex = 1] give the target [screenHeight - 300], whatever the
    screen height, the height passed to [open] and the state. *)
Lemma open_targets_initial_snap_point_example
    (K : Constants) (h : option Z) (s : Drawer) :
  let props := {| p_onClose := None; p_openDuration := None;
                  p_closeDuration := None; p_onOpen := None;
                  p_initialHeight := None; p_openOnMount := None;
                  p_snapPoints := Some [100; 300; 500];
                  p_initialIndex := Some 1;
                  p_enableSnapping := None; p_safeTopOffset := None |} in
  let s' := exec (handleOpen (destructure K props) h) s in
  lastPosition s' = JNum 300 /\
  target s' = Some (JNum (screenHeight K - 300)).
Proof.
  intros props s'. subst s' props.
  unfold exec. rewrite handleOpen_spec. split; reflexivity.
Qed.

(** C3, at the failing input.  [open()] is called on the sample drawer
    while its close animation runs.  [lastPosition] and the target are
    those of the initial snap point, as the claim says; but [open] sets
    visibility before it starts its animation, and starting it stops the
    close animation, whose callback does not look at [finished]: [onClose]
    is called and the drawer ends hidden. *)
Theorem open_during_close :
  let s' := exec (handleOpen sample_cfg (Some 650)) closing_sample in
  enableSnapping sample_cfg = true /\
  closing closing_sample = true /\
  outcome (handleOpen sample_cfg (Some 650)) closing_sample = Returned tt /\
  lastPosition s' = JNum 300 /\
  target s' = Some (JNum (800 - 300)) /\
  modalVisible s' = false /\
  outcome handleIsOpen s' = Returned false /\
  currentIndex s' = 0 /\
  host_calls (effects s') = [8%nat; 7%nat].
Proof.
  vm_compute. repeat split; reflexivity.
Qed.

(** C4.  [close()] starts a timing animation (ease-in, the configured close
    duration) back to the fully hidden offset [screenHeight].  When that
    animation ends, [onClose] (when the prop is given) is called, visibility
    is false, so [isOpen()] answers false, and the current index is 0. *)
Theorem close_completes (cfg : Config) (finished : bool) (s : Drawer) :
  let s1 := exec (handleClose cfg) s in
  let s2 := exec (animation_end cfg finished) s1 in
  outcome (handleClose cfg) s = Returned tt /\
  target s1 = Some (JNum (screenHeight (consts cfg))) /\
  running_kind s1 = Some (Timing EaseInEase (closeDuration cfg)) /\
  outcome (animation_end cfg finished) s1 = Returned tt /\
  effects s2 =
    effects s1 ++
    match onClose cfg with Some f => [HostCall f] | None => [] end /\
  modalVisible s2 = false /\
  outcome handleIsOpen s2 = Returned false /\
  currentIndex s2 = 0 /\
  running (animatedHeight s2) = None /\
  (finished = true ->
   value (animatedHeight s2) = JNum (screenHeight (consts cfg))).
Proof.
  intros s1 s2. subst s2 s1. unfold outcome, exec.
  rewrite !handleClose_spec. cbn [fst snd].
  split; [reflexivity |]. split; [reflexivity |]. split; [reflexivity |].
  split; [apply animation_end_returns |].
  unfold started_state.
  destruct (onClose cfg) as [f |] eqn:HonClose; run; rewrite HonClose; run;
    repeat split; try reflexivity;
    try (rewrite app_nil_r; reflexivity);
    intros ->; reflexivity.
Qed.

Example close_sample :
  let s0 := exec (mount_effect sample_cfg) (initial_state sample_cfg) in
  let s1 := exec (animation_end sample_cfg true) s0 in
  let s2 := exec (handleSnapToIndex sample_cfg 2) s1 in
  let s3 := exec (handleClose sample_cfg) s2 in
  let s4 := exec (animation_end sample_cfg true) s3 in
  currentIndex s2 = 2 /\ modalVisible s3 = true /\
  modalVisible s4 = false /\ currentIndex s4 = 0 /\
  host_calls (effects s4) = [8%nat; 7%nat] /\
  value (animatedHeight s4) = JNum 800.
Proof. vm_compute. repeat split; reflexivity. Qed.

(** ** snapToPosition *)

(** C5.  For every position [p] and every [config], [snapToPosition(p,
    config)] called while the drawer is not visible returns normally (it
    does not throw), logs one warning, starts no animation and changes no
    state: [lastPosition], the animated value, both indices, visibility and
    the trigger source are as before. *)
Theorem snapToPosition_hidden_warns
    (cfg : Config) (p : Z) (config : option SnapToPositionConfig)
    (s : Drawer) :
  modalVisible s = false ->
  let s' := exec (handleSnapToPosition cfg p config) s in
  outcome (handleSnapToPosition cfg p config) s = Returned tt /\
  effects s' =
    effects s ++
    [ConsoleWarn
       "snapToPosition can be used only when bottom drawer is opened"] /\
  started (effects s') = started (effects s) /\
  animatedHeight s' = animatedHeight s /\
  lastPosition s' = lastPosition s /\
  currentIndex s' = currentIndex s /\
  currentDrawerIndex s' = currentDrawerIndex s /\
  modalVisible s' = modalVisible s /\
  keyboardTriggerSource s' = keyboardTriggerSource s.
Proof.
  intros Hhidden. run. rewrite Hhidden. run.
  rewrite started_app, app_nil_r, Hhidden.
  repeat split; reflexivity.
Qed.

Lemma snapToPosition_hidden_warns_witness :
  let s := initial_state sample_cfg in
  let s' := exec (handleSnapToPosition sample_cfg 250 None) s in
  outcome (handleSnapToPosition sample_cfg 250 None) s = Returned tt /\
  warnings (effects s') =
    ["snapToPosition can be used only when bottom drawer is opened"] /\
  started (effects s') = [] /\
  lastPosition s' = JNum 420.
Proof.
  destruct (snapToPosition_hidden_warns sample_cfg 250 None
              (initial_state sample_cfg) eq_refl)
    as (Hret & Hlog & Hstarted & _ & Hlast & _).
  split; [exact Hret |].
  split; [rewrite Hlog; reflexivity |].
  split; [rewrite Hstarted; reflexivity |].
  rewrite Hlast. reflexivity.
Defined.

(** C6.  For every position [p], [snapToPosition(p, config)] called while
    the drawer is visible starts a spring animation to [screenHeight - p];
    it sets [lastPosition] to [p] when [resetLastPosition] is true, which is
    also the value taken when [config] or the field is omitted, and leaves
    [lastPosition] unchanged when [resetLastPosition] is false.  The effect
    log gains the calls made by stopping the running animation, then the
    spring. *)
Theorem snapToPosition_visible
    (cfg : Config) (p : Z) (config : option SnapToPositionConfig)
    (s : Drawer) :
  modalVisible s = true ->
  let s' := exec (handleSnapToPosition cfg p config) s in
  let spring := {| kind := Spring;
                   toValue := JNum (screenHeight (consts cfg) - p);
                   callback := NoCallback |} in
  outcome (handleSnapToPosition cfg p config) s = Returned tt /\
  running (animatedHeight s') = Some spring /\
  effects s' = effects s ++ superseded_calls cfg s ++ [AnimationStart spring] /\
  started (effects s') = started (effects s) ++ [spring] /\
  (destructure_config config = true -> lastPosition s' = JNum p) /\
  (destructure_config config = false -> lastPosition s' = lastPosition s) /\
  destructure_config None = true /\
  destructure_config (Some {| resetLastPosition := None |}) = true /\
  (forall b, destructure_config (Some {| resetLastPosition := Some b |}) = b).
Proof.
  intros Hvisible s' spring. subst s'. unfold outcome, exec.
  rewrite !handleSnapToPosition_visible by assumption. cbn [fst snd].
  fold spring.
  assert (Hdefaults :
            destructure_config None = true /\
            destructure_config (Some {| resetLastPosition := None |}) = true /\
            (forall b,
               destructure_config (Some {| resetLastPosition := Some b |})
               = b)).
  { split; [reflexivity |]. split; [reflexivity |]. intros b. reflexivity. }
  destruct (destructure_config config);
    unfold started_state;
    cbn [animatedHeight running effects lastPosition];
    change (superseded_calls cfg (exec (set_lastPosition (JNum p)) s))
      with (superseded_calls cfg s);
    change (effects (exec (set_lastPosition (JNum p)) s)) with (effects s);
    change (lastPosition (exec (set_lastPosition (JNum p)) s))
      with (JNum p);
    rewrite !started_app, started_superseded_calls;
    (split; [reflexivity |]); (split; [reflexivity |]);
    (split; [reflexivity |]); (split; [reflexivity |]);
    (split; [intros Hb; first [reflexivity | discriminate Hb] |]);
    (split; [intros Hb; first [reflexivity | discriminate Hb] |]);
    exact Hdefaults.
Qed.

Lemma snapToPosition_visible_witness :
  let s := exec (handleOpen sample_cfg None) (initial_state sample_cfg) in
  let keep := Some {| resetLastPosition := Some false |} in
  lastPosition (exec (handleSnapToPosition sample_cfg 650 keep) s) = JNum 300 /\
  target (exec (handleSnapToPosition sample_cfg 650 keep) s) = Some (JNum 150) /\
  lastPosition (exec (handleSnapToPosition sample_cfg 650 None) s) = JNum 650.
Proof.
  intros s keep.
  destruct (snapToPosition_visible sample_cfg 650 keep s eq_refl)
    as (_ & Hrun & _ & _ & _ & Hkeep & _).
  destruct (snapToPosition_visible sample_cfg 650 None s eq_refl)
    as (_ & _ & _ & _ & Hreset & _).
  split; [rewrite (Hkeep eq_refl); reflexivity |].
  split; [unfold target; rewrite Hrun; reflexivity |].
  rewrite (Hreset eq_refl). reflexivity.
Defined.

(** ** Keyboard *)

(** C7, at the failing inputs.  With snapping disabled and the drawer at
    index 1, the keyboard shows: the callback records an external trigger,
    and the effect calls [handleSnapToIndex(0)] without asking
    [checkIfAvailable] first, as the pan handler does.  The call throws
    inside the effect, which unmounts the component; no animation starts
    and the current index is still 1, not 0.  With a single snap point an
    internal trigger throws in the same way and the index stays 0. *)
Theorem keyboard_effect_throws_when_unavailable :
  let s := exec (onKeyboardChange true) (initial_state no_snapping_cfg) in
  let s' := exec (keyboard_snap_effect no_snapping_cfg true) s in
  let t := with_source (Some Internal) (initial_state single_point_cfg) in
  let t' := exec (keyboard_snap_effect single_point_cfg true) t in
  (keyboardTriggerSource s = Some External /\
   outcome (keyboard_snap_effect no_snapping_cfg true) s
   = Thrown "Provided index is out of range of snapPoints!" /\
   unmounts no_snapping_cfg (EKeyboardEffect true) s = true /\
   currentIndex s' = 1 /\ currentIndex s' <> 0 /\
   started (effects s') = []) /\
  (keyboardTriggerSource t = Some Internal /\
   outcome (keyboard_snap_effect single_point_cfg true) t
   = Thrown "Provided index is out of range of snapPoints!" /\
   currentIndex t' = 0 /\ currentIndex t' <> 1 /\
   started (effects t') = []).
Proof.
  vm_compute. repeat split; try reflexivity; discriminate.
Qed.

(** What the keyboard effect does when the index it asks for exists.  With
    the keyboard open: for an external trigger and index 0 available, it
    snaps to index 0 and the current index is 0; for an internal trigger
    and index 1 available, it snaps to index 1, and the current index is 1
    when no close animation was running; with no trigger recorded, or with
    the keyboard not open, it does nothing. *)
Lemma keyboard_snap_when_available (cfg : Config) (s : Drawer) :
  let s' := exec (keyboard_snap_effect cfg true) s in
  (keyboardTriggerSource s = Some External ->
   checkIfAvailable cfg 0 = true ->
   outcome (keyboard_snap_effect cfg true) s = Returned tt /\
   s' = snapped cfg 0 s /\
   currentIndex s' = 0 /\ currentDrawerIndex s' = 0) /\
  (keyboardTriggerSource s = Some Internal ->
   checkIfAvailable cfg 1 = true ->
   outcome (keyboard_snap_effect cfg true) s = Returned tt /\
   s' = snapped cfg 1 s /\
   currentDrawerIndex s' = 1 /\
   (closing s = false -> currentIndex s' = 1)) /\
  (keyboardTriggerSource s = None ->
   outcome (keyboard_snap_effect cfg true) s = Returned tt /\ s' = s) /\
  keyboard_snap_effect cfg false s = (Returned tt, s).
Proof.
  intros s'. subst s'.
  unfold keyboard_snap_effect, bind, gets, ret, outcome, exec.
  split; [| split; [| split]].
  - intros Hsrc Havail. rewrite Hsrc, handleSnapToIndex_available by assumption.
    cbn [fst snd snapped currentIndex currentDrawerIndex].
    repeat split; try reflexivity. destruct (closing s); reflexivity.
  - intros Hsrc Havail. rewrite Hsrc, handleSnapToIndex_available by assumption.
    cbn [fst snd snapped currentIndex currentDrawerIndex].
    repeat split; try reflexivity. intros ->. reflexivity.
  - intros Hsrc. rewrite Hsrc. split; reflexivity.
  - reflexivity.
Qed.

(** C8.  [findActiveInputInContent] always returns false; hence every call
    [onKeyboardChange(true)] records the trigger source external, no call
    of [onKeyboardChange] records internal, and [onKeyboardChange(false)]
    clears the trigger source. *)
Theorem keyboard_source_always_external (s : Drawer) :
  findActiveInputInContent s = (Returned false, s) /\
  keyboardTriggerSource (exec (onKeyboardChange true) s) = Some External /\
  (forall isOpen,
     keyboardTriggerSource (exec (onKeyboardChange isOpen) s)
     <> Some Internal) /\
  keyboardTriggerSource (exec (onKeyboardChange false) s) = None /\
  (forall isOpen,
     outcome (onKeyboardChange isOpen) s = Returned tt /\
     currentIndex (exec (onKeyboardChange isOpen) s) = currentIndex s /\
     lastPosition (exec (onKeyboardChange isOpen) s) = lastPosition s /\
     effects (exec (onKeyboardChange isOpen) s) = effects s).
Proof.
  repeat split; try reflexivity.
  - intros [|]; run; discriminate.
  - destruct isOpen; reflexivity.
  - destruct isOpen; reflexivity.
  - destruct isOpen; reflexivity.
  - destruct isOpen; reflexivity.
Qed.

(** ** Drag on the handle *)

Lemma onPanResponderMove_cases (cfg : Config) (dy : Z) (s : Drawer) :
  onPanResponderMove cfg dy s = (Returned tt, s) \/
  exists i,
    (i = currentIndex s + 1 \/ i = currentIndex s - 1) /\
    checkIfAvailable cfg i = true /\
    onPanResponderMove cfg dy s = (Returned tt, snapped cfg i s).
Proof.
  unfold onPanResponderMove, bind, gets, ret.
  destruct ((dy <? - safeTopOffset cfg)
            && checkIfAvailable cfg (currentIndex s + 1)) eqn:Hup.
  - apply andb_true_iff in Hup. destruct Hup as [_ Hup].
    right. exists (currentIndex s + 1).
    split; [left; reflexivity |]. split; [assumption |].
    apply handleSnapToIndex_available; assumption.
  - destruct ((dy >? safeTopOffset cfg)
              && checkIfAvailable cfg (currentIndex s - 1)) eqn:Hdown.
    + apply andb_true_iff in Hdown. destruct Hdown as [_ Hdown].
      right. exists (currentIndex s - 1).
      split; [right; reflexivity |]. split; [assumption |].
      apply handleSnapToIndex_available; assumption.
    + left. reflexivity.
Qed.

(** The move callback never throws: every snap it attempts is guarded by
    [checkIfAvailable]. *)
Lemma onPanResponderMove_returns (cfg : Config) (dy : Z) (s : Drawer) :
  outcome (onPanResponderMove cfg dy) s = Returned tt.
Proof.
  unfold outcome.
  destruct (onPanResponderMove_cases cfg dy s) as [H | (i & _ & _ & H)];
    rewrite H; reflexivity.
Qed.

(** For a non-negative safe offset, the branch a move takes. *)
Lemma onPanResponderMove_down (cfg : Config) (dy : Z) (s : Drawer) :
  0 <= safeTopOffset cfg ->
  dy > safeTopOffset cfg ->
  onPanResponderMove cfg dy s =
  if checkIfAvailable cfg (currentIndex s - 1)
  then (Returned tt, snapped cfg (currentIndex s - 1) s)
  else (Returned tt, s).
Proof.
  intros Hsafe Hdy. unfold onPanResponderMove, bind, gets, ret.
  destruct (Z.ltb_spec dy (- safeTopOffset cfg)) as [Hup | _]; [lia |].
  destruct (Z.gtb_spec dy (safeTopOffset cfg)) as [_ | Hno]; [| lia].
  cbn [andb].
  destruct (checkIfAvailable cfg (currentIndex s - 1)) eqn:Havail;
    [| reflexivity].
  apply handleSnapToIndex_available; assumption.
Qed.

Lemma onPanResponderMove_up (cfg : Config) (dy : Z) (s : Drawer) :
  0 <= safeTopOffset cfg ->
  dy < - safeTopOffset cfg ->
  onPanResponderMove cfg dy s =
  if checkIfAvailable cfg (currentIndex s + 1)
  then (Returned tt, snapped cfg (currentIndex s + 1) s)
  else (Returned tt, s).
Proof.
  intros Hsafe Hdy. unfold onPanResponderMove, bind, gets, ret.
  destruct (Z.ltb_spec dy (- safeTopOffset cfg)) as [_ | Hno]; [| lia].
  destruct (Z.gtb_spec dy (safeTopOffset cfg)) as [Hdown | _]; [lia |].
  cbn [andb].
  destruct (checkIfAvailable cfg (currentIndex s + 1)) eqn:Havail;
    [| reflexivity].
  apply handleSnapToIndex_available; assumption.
Qed.

Lemma onPanResponderMove_within (cfg : Config) (dy : Z) (s : Drawer) :
  - safeTopOffset cfg <= dy <= safeTopOffset cfg ->
  onPanResponderMove cfg dy s = (Returned tt, s).
Proof.
  intros [Hlo Hhi]. unfold onPanResponderMove, bind, gets, ret.
  destruct (Z.ltb_spec dy (- safeTopOffset cfg)) as [Hup | _]; [lia |].
  destruct (Z.gtb_spec dy (safeTopOffset cfg)) as [Hdown | _]; [lia |].
  reflexivity.
Qed.

(** C9, as stated, fails.  With a safe offset of -10, a move of 5 downwards
    exceeds the offset ([5 > -10]) and the index one lower, 0, is available;
    but [5 < 10] holds as well, the upward branch is tried first, and the
    drawer snaps from index 1 up to index 2.  And with the sample offset of
    50, an upward move of 60 made while the close animation runs snaps to
    index 2 but leaves the index ref at 0 and the drawer hidden, because
    the spring stops the close animation and its callback runs. *)
Lemma pan_gesture_counterexample :
  let cfg := negative_offset_cfg in
  let s := initial_state cfg in
  let moved := exec (onPanResponderMove cfg 5) s in
  let late := exec (onPanResponderMove sample_cfg (-60)) closing_sample in
  (currentIndex s = 1 /\
   5 > safeTopOffset cfg /\
   0 < 5 /\
   checkIfAvailable cfg (currentIndex s - 1) = true /\
   closing s = false /\
   currentIndex moved = 2 /\
   currentIndex moved <> currentIndex s - 1 /\
   lastPosition moved = JNum 500) /\
  (currentIndex closing_sample = 1 /\
   -60 < - safeTopOffset sample_cfg /\
   checkIfAvailable sample_cfg (currentIndex closing_sample + 1) = true /\
   closing closing_sample = true /\
   lastPosition late = JNum 500 /\
   currentIndex late = 0 /\
   currentIndex late <> currentIndex closing_sample + 1 /\
   modalVisible late = false).
Proof.
  vm_compute. repeat split; try reflexivity; discriminate.
Qed.

(** C9, amended.  For a non-negative safe offset: a move whose [dy] exceeds
    the offset downwards ([dy > safeTopOffset]) snaps to the index one lower
    when that index is available ([lastPosition], the rendered index and a
    spring go to its snap point, and the current index becomes that index
    when no close animation is running) and does nothing otherwise; a move
    whose [dy] exceeds it upwards ([dy < -safeTopOffset]) does the same with
    the index one higher; a move within the offset does nothing.  A move
    never throws.  On release the drawer always starts a spring animation
    to [screenHeight - lastPosition], and [lastPosition] itself is not
    changed by the release. *)
Theorem pan_gesture_snaps_and_settles (cfg : Config) (dy : Z) (s : Drawer) :
  let cur := currentIndex s in
  let moved := exec (onPanResponderMove cfg dy) s in
  let released := exec (onPanResponderRelease cfg) s in
  let settle := {| kind := Spring;
                   toValue := js_sub (JNum (screenHeight (consts cfg)))
                                     (lastPosition s);
                   callback := NoCallback |} in
  let snaps_to i :=
    lastPosition moved = js_index (snapPoints cfg) i /\
    currentDrawerIndex moved = i /\
    running (animatedHeight moved) = Some (snap_spring cfg i) /\
    (closing s = false ->
     currentIndex moved = i /\ modalVisible moved = modalVisible s) in
  outcome (onPanResponderMove cfg dy) s = Returned tt /\
  (0 <= safeTopOffset cfg ->
   (dy > safeTopOffset cfg ->
    (checkIfAvailable cfg (cur - 1) = true -> snaps_to (cur - 1)) /\
    (checkIfAvailable cfg (cur - 1) = false -> moved = s)) /\
   (dy < - safeTopOffset cfg ->
    (checkIfAvailable cfg (cur + 1) = true -> snaps_to (cur + 1)) /\
    (checkIfAvailable cfg (cur + 1) = false -> moved = s)) /\
   (- safeTopOffset cfg <= dy <= safeTopOffset cfg -> moved = s)) /\
  outcome (onPanResponderRelease cfg) s = Returned tt /\
  running (animatedHeight released) = Some settle /\
  started (effects released) = started (effects s) ++ [settle] /\
  lastPosition released = lastPosition s.
Proof.
  intros cur moved released settle snaps_to.
  assert (Hsnap : forall i, snaps_to i = (
            lastPosition moved = js_index (snapPoints cfg) i /\
            currentDrawerIndex moved = i /\
            running (animatedHeight moved) = Some (snap_spring cfg i) /\
            (closing s = false ->
             currentIndex moved = i /\ modalVisible moved = modalVisible s)))
    by reflexivity.
  split; [apply onPanResponderMove_returns |].
  subst cur. split.
  - intros Hsafe. subst moved. split; [| split].
    + intros Hdy. rewrite Hsnap. unfold exec.
      rewrite (onPanResponderMove_down cfg dy s Hsafe Hdy).
      split; intros Havail; rewrite Havail; cbn [snd]; [| reflexivity].
      unfold snapped.
      cbn [lastPosition currentDrawerIndex animatedHeight running
           currentIndex modalVisible].
      repeat split; try reflexivity; rewrite H; reflexivity.
    + intros Hdy. rewrite Hsnap. unfold exec.
      rewrite (onPanResponderMove_up cfg dy s Hsafe Hdy).
      split; intros Havail; rewrite Havail; cbn [snd]; [| reflexivity].
      unfold snapped.
      cbn [lastPosition currentDrawerIndex animatedHeight running
           currentIndex modalVisible].
      repeat split; try reflexivity; rewrite H; reflexivity.
    + intros Hin. unfold exec.
      rewrite onPanResponderMove_within by assumption.
      reflexivity.
  - subst released. unfold outcome, exec.
    rewrite onPanResponderRelease_spec. cbn [fst snd]. fold settle.
    unfold started_state. cbn [animatedHeight running effects lastPosition].
    rewrite !started_app, started_superseded_calls.
    repeat split; reflexivity.
Qed.

Lemma pan_gesture_snaps_and_settles_witness :
  let s := exec (mount_effect sample_cfg) (initial_state sample_cfg) in
  let down := exec (onPanResponderMove sample_cfg 60) s in
  let up := exec (onPanResponderMove sample_cfg (-60)) s in
  currentIndex s = 1 /\
  currentIndex down = 0 /\ lastPosition down = JNum 100 /\
  currentIndex up = 2 /\ lastPosition up = JNum 500 /\
  target (exec (onPanResponderRelease sample_cfg) down) = Some (JNum 700).
Proof.
  intros s down up.
  assert (Hsafe : 0 <= safeTopOffset sample_cfg) by (vm_compute; discriminate).
  destruct (pan_gesture_snaps_and_settles sample_cfg 60 s)
    as (_ & Hmove & _).
  destruct (Hmove Hsafe) as (Hdown & _).
  destruct (Hdown eq_refl) as [Hd _].
  destruct (Hd eq_refl) as (Hdlast & _ & _ & Hdcur).
  destruct (pan_gesture_snaps_and_settles sample_cfg (-60) s)
    as (_ & Hmove' & _).
  destruct (Hmove' Hsafe) as (_ & Hup & _).
  destruct (Hup eq_refl) as [Hu _].
  destruct (Hu eq_refl) as (Hulast & _ & _ & Hucur).
  destruct (pan_gesture_snaps_and_settles sample_cfg 0 down)
    as (_ & _ & _ & Hrel & _).
  split; [reflexivity |].
  split; [apply (Hdcur eq_refl) |].
  split; [exact Hdlast |].
  split; [apply (Hucur eq_refl) |].
  split; [exact Hulast |].
  unfold target. rewrite Hrel. reflexivity.
Defined.

(** ** The initial index is not checked *)

(** C10.  With snapping enabled [handleOpen] reads
    [snapPoints[initialIndex]] whatever the index: it never throws, and it
    stores the value read in [lastPosition].  The value read is a number,
    and the animation target [screenHeight] minus that number, exactly when
    [0 <= initialIndex < snapPoints.length]; outside that range the read
    gives [undefined] and the target is not a number.  Some configuration
    is outside the range. *)
Theorem open_reads_initial_index_unchecked :
  (forall (cfg : Config) (h : option Z) (s : Drawer),
     enableSnapping cfg = true ->
     let s' := exec (handleOpen cfg h) s in
     outcome (handleOpen cfg h) s = Returned tt /\
     lastPosition s' = js_index (snapPoints cfg) (initialIndex cfg) /\
     (in_range cfg (initialIndex cfg) ->
      exists p,
        nth_error (snapPoints cfg) (Z.to_nat (initialIndex cfg)) = Some p /\
        lastPosition s' = JNum p /\
        target s' = Some (JNum (screenHeight (consts cfg) - p))) /\
     (~ in_range cfg (initialIndex cfg) ->
      lastPosition s' = JUndefined /\ target s' = Some JNaN)) /\
  (exists (cfg : Config) (h : option Z) (s : Drawer),
     enableSnapping cfg = true /\
     ~ in_range cfg (initialIndex cfg) /\
     lastPosition (exec (handleOpen cfg h) s) = JUndefined /\
     target (exec (handleOpen cfg h) s) = Some JNaN).
Proof.
  assert (Hall : forall (cfg : Config) (h : option Z) (s : Drawer),
     enableSnapping cfg = true ->
     let s' := exec (handleOpen cfg h) s in
     outcome (handleOpen cfg h) s = Returned tt /\
     lastPosition s' = js_index (snapPoints cfg) (initialIndex cfg) /\
     (in_range cfg (initialIndex cfg) ->
      exists p,
        nth_error (snapPoints cfg) (Z.to_nat (initialIndex cfg)) = Some p /\
        lastPosition s' = JNum p /\
        target s' = Some (JNum (screenHeight (consts cfg) - p))) /\
     (~ in_range cfg (initialIndex cfg) ->
      lastPosition s' = JUndefined /\ target s' = Some JNaN)).
  { intros cfg h s Hsnap s'. subst s'. unfold outcome, exec, target.
    rewrite handleOpen_spec. cbn [fst snd]. unfold started_state.
    cbn [animatedHeight running lastPosition option_map toValue].
    rewrite Hsnap. run.
    split; [reflexivity |]. split; [reflexivity |]. split.
    - intros Hin.
      destruct (js_index_in_range _ _ Hin) as (p & Hnth & Hidx).
      exists p. rewrite Hidx. repeat split; assumption.
    - intros Hout. rewrite (js_index_out_of_range _ _ Hout).
      split; reflexivity. }
  split; [exact Hall |].
  exists overshoot_cfg, (Some 250), (initial_state overshoot_cfg).
  assert (Hout : ~ in_range overshoot_cfg (initialIndex overshoot_cfg)).
  { unfold in_range. vm_compute. intros [_ Hlt]. discriminate Hlt. }
  destruct (Hall overshoot_cfg (Some 250) (initial_state overshoot_cfg) eq_refl)
    as (_ & _ & _ & Hbad).
  split; [reflexivity |]. split; [exact Hout |]. exact (Hbad Hout).
Qed.

Lemma open_reads_initial_index_unchecked_witness :
  let s' := exec (handleOpen overshoot_cfg None) (initial_state overshoot_cfg) in
  outcome (handleOpen overshoot_cfg None) (initial_state overshoot_cfg)
  = Returned tt /\
  lastPosition s' = JUndefined /\ target s' = Some JNaN.
Proof.
  destruct (proj1 open_reads_initial_index_unchecked overshoot_cfg None
              (initial_state overshoot_cfg) eq_refl)
    as (Hret & _ & _ & Hbad).
  split; [exact Hret |].
  apply Hbad. unfold in_range. vm_compute. intros [_ Hlt]. discriminate Hlt.
Defined.

(** * Further properties of the handlers *)

(** ** More on the drag *)

(** A move event never throws and never skips an index, for every [dy] and
    every safe offset, negative ones included: either it changes nothing,
    or it snaps to an index next to the current one and inside the snap
    points.  After such a snap the rendered index is that index and
    [lastPosition] is its snap point; the index ref is that index and
    visibility is unchanged when no close animation was running, and when
    one was running the index ref is 0 and the drawer is hidden. *)
Theorem pan_move_adjacent_or_nothing (cfg : Config) (dy : Z) (s : Drawer) :
  let moved := exec (onPanResponderMove cfg dy) s in
  outcome (onPanResponderMove cfg dy) s = Returned tt /\
  (moved = s \/
   exists i,
     Z.abs (i - currentIndex s) = 1 /\
     in_range cfg i /\
     currentDrawerIndex moved = i /\
     lastPosition moved = js_index (snapPoints cfg) i /\
     currentIndex moved = (if closing s then 0 else i) /\
     modalVisible moved = (if closing s then false else modalVisible s)).
Proof.
  unfold exec, outcome.
  destruct (onPanResponderMove_cases cfg dy s)
    as [Hsame | (i & Hadj & Havail & Hmove)].
  - rewrite Hsame. split; [reflexivity | left; reflexivity].
  - rewrite Hmove. split; [reflexivity |]. right. exists i.
    apply checkIfAvailable_true in Havail. destruct Havail as [_ Hin].
    split; [destruct Hadj as [-> | ->]; lia |].
    split; [exact Hin |]. repeat split; reflexivity.
Qed.

(** With snapping disabled, or with no snap points, a move event does
    nothing at all, whatever the drag distance. *)
Theorem pan_move_without_snap_points (cfg : Config) (dy : Z) (s : Drawer) :
  enableSnapping cfg = false \/ snapPoints cfg = [] ->
  onPanResponderMove cfg dy s = (Returned tt, s).
Proof.
  intros Hnone.
  destruct (onPanResponderMove_cases cfg dy s)
    as [Hsame | (i & _ & Havail & _)]; [assumption |].
  apply checkIfAvailable_true in Havail. destruct Havail as [Hon [Hlo Hhi]].
  destruct Hnone as [Hoff | Hempty].
  - congruence.
  - unfold js_length in Hhi. rewrite Hempty in Hhi. simpl in Hhi. lia.
Qed.

Lemma pan_move_without_snap_points_witness :
  onPanResponderMove no_snapping_cfg 500 (initial_state no_snapping_cfg)
  = (Returned tt, initial_state no_snapping_cfg).
Proof.
  apply pan_move_without_snap_points. left. reflexivity.
Defined.

Lemma pan_move_down_once (cfg : Config) (dy : Z) (s : Drawer) :
  0 <= safeTopOffset cfg ->
  enableSnapping cfg = true ->
  in_range cfg (currentIndex s) ->
  closing s = false ->
  dy > safeTopOffset cfg ->
  currentIndex (exec (onPanResponderMove cfg dy) s)
  = Z.max 0 (currentIndex s - 1) /\
  closing (exec (onPanResponderMove cfg dy) s) = false.
Proof.
  intros Hsafe Hon Hin Hquiet Hdy. unfold exec.
  rewrite onPanResponderMove_down by assumption.
  destruct (checkIfAvailable cfg (currentIndex s - 1)) eqn:Havail;
    cbn [snd].
  - apply checkIfAvailable_true in Havail. unfold in_range in Havail.
    unfold snapped. cbn [currentIndex]. rewrite Hquiet.
    split; [lia | reflexivity].
  - apply checkIfAvailable_false in Havail. unfold in_range in Hin.
    split; [| assumption].
    destruct Havail as [Hoff | Hout]; [congruence | lia].
Qed.

Lemma pan_move_up_once (cfg : Config) (dy : Z) (s : Drawer) :
  0 <= safeTopOffset cfg ->
  enableSnapping cfg = true ->
  in_range cfg (currentIndex s) ->
  closing s = false ->
  dy < - safeTopOffset cfg ->
  currentIndex (exec (onPanResponderMove cfg dy) s)
  = Z.min (js_length (snapPoints cfg) - 1) (currentIndex s + 1) /\
  closing (exec (onPanResponderMove cfg dy) s) = false.
Proof.
  intros Hsafe Hon Hin Hquiet Hdy. unfold exec.
  rewrite onPanResponderMove_up by assumption.
  destruct (checkIfAvailable cfg (currentIndex s + 1)) eqn:Havail;
    cbn [snd].
  - apply checkIfAvailable_true in Havail. unfold in_range in Havail.
    unfold snapped. cbn [currentIndex]. rewrite Hquiet.
    split; [lia | reflexivity].
  - apply checkIfAvailable_false in Havail. unfold in_range in Hin.
    split; [| assumption].
    destruct Havail as [Hoff | Hout]; [congruence | lia].
Qed.

(** The drag distance [dy] is measured from the start of the gesture, so a
    finger held beyond the safe offset keeps stepping.  When no close
    animation is running, [n] move events with [dy > safeTopOffset] take an
    in-range current index [k] down to [max 0 (k - n)], one index per
    event, stopping at index 0. *)
Theorem drag_down_steps_to_first_index
    (cfg : Config) (dy : Z) (n : nat) (s : Drawer) :
  0 <= safeTopOffset cfg ->
  enableSnapping cfg = true ->
  in_range cfg (currentIndex s) ->
  closing s = false ->
  dy > safeTopOffset cfg ->
  currentIndex (run_events cfg (repeat (EPanMove dy) n) s)
  = Z.max 0 (currentIndex s - Z.of_nat n).
Proof.
  intros Hsafe Hon Hin Hquiet Hdy. revert s Hin Hquiet.
  induction n as [| n IH]; intros s Hin Hquiet.
  - simpl. unfold in_range in Hin. lia.
  - cbn [repeat run_events step unmounts].
    destruct (pan_move_down_once cfg dy s Hsafe Hon Hin Hquiet Hdy)
      as [Hone Hquiet'].
    rewrite IH.
    + rewrite Hone. lia.
    + unfold in_range in *. rewrite Hone. lia.
    + assumption.
Qed.

Lemma drag_down_steps_to_first_index_witness :
  let s := exec (handleSnapToIndex sample_cfg 2) (initial_state sample_cfg) in
  currentIndex s = 2 /\
  currentIndex (run_events sample_cfg (repeat (EPanMove 80) 5) s) = 0.
Proof.
  intros s. split; [reflexivity |].
  rewrite (drag_down_steps_to_first_index sample_cfg 80 5 s).
  - reflexivity.
  - vm_compute. discriminate.
  - reflexivity.
  - unfold in_range. vm_compute. split; [discriminate | reflexivity].
  - reflexivity.
  - reflexivity.
Defined.

(** Likewise, when no close animation is running, [n] move events with
    [dy < -safeTopOffset] take an in-range current index [k] up to
    [min (snapPoints.length - 1) (k + n)], stopping at the last snap
    point. *)
Theorem drag_up_steps_to_last_index
    (cfg : Config) (dy : Z) (n : nat) (s : Drawer) :
  0 <= safeTopOffset cfg ->
  enableSnapping cfg = true ->
  in_range cfg (currentIndex s) ->
  closing s = false ->
  dy < - safeTopOffset cfg ->
  currentIndex (run_events cfg (repeat (EPanMove dy) n) s)
  = Z.min (js_length (snapPoints cfg) - 1) (currentIndex s + Z.of_nat n).
Proof.
  intros Hsafe Hon Hin Hquiet Hdy. revert s Hin Hquiet.
  induction n as [| n IH]; intros s Hin Hquiet.
  - simpl. unfold in_range in Hin. lia.
  - cbn [repeat run_events step unmounts].
    destruct (pan_move_up_once cfg dy s Hsafe Hon Hin Hquiet Hdy)
      as [Hone Hquiet'].
    rewrite IH.
    + rewrite Hone. lia.
    + unfold in_range in *. rewrite Hone. lia.
    + assumption.
Qed.

Lemma drag_up_steps_to_last_index_witness :
  let s := initial_state sample_cfg in
  currentIndex s = 1 /\
  currentIndex (run_events sample_cfg (repeat (EPanMove (-80)) 4) s) = 2.
Proof.
  intros s. split; [reflexivity |].
  rewrite (drag_up_steps_to_last_index sample_cfg (-80) 4 s).
  - reflexivity.
  - vm_compute. discriminate.
  - reflexivity.
  - unfold in_range. vm_compute. split; [discriminate | reflexivity].
  - reflexivity.
  - reflexivity.
Defined.

(** ** Release after a reposition *)

(** A reposition with [resetLastPosition: false] is transient: while the
    drawer is visible it animates to [screenHeight - p], but the next
    release starts exactly the animation it would have started without the
    reposition, back to the committed [lastPosition]. *)
Theorem release_undoes_transient_reposition
    (cfg : Config) (p : Z) (config : option SnapToPositionConfig)
    (s : Drawer) :
  modalVisible s = true ->
  destructure_config config = false ->
  let moved := exec (handleSnapToPosition cfg p config) s in
  target moved = Some (JNum (screenHeight (consts cfg) - p)) /\
  running (animatedHeight (exec (onPanResponderRelease cfg) moved))
  = running (animatedHeight (exec (onPanResponderRelease cfg) s)) /\
  target (exec (onPanResponderRelease cfg) moved)
  = Some (js_sub (JNum (screenHeight (consts cfg))) (lastPosition s)) /\
  lastPosition (exec (onPanResponderRelease cfg) moved) = lastPosition s.
Proof.
  intros Hvisible Hkeep moved. subst moved. unfold exec, target.
  rewrite handleSnapToPosition_visible by assumption. rewrite Hkeep.
  rewrite !onPanResponderRelease_spec. cbn [snd].
  repeat split; reflexivity.
Qed.

Lemma release_undoes_transient_reposition_witness :
  let s := exec (mount_effect sample_cfg) (initial_state sample_cfg) in
  let keep := Some {| resetLastPosition := Some false |} in
  let moved := exec (handleSnapToPosition sample_cfg 650 keep) s in
  target moved = Some (JNum 150) /\
  target (exec (onPanResponderRelease sample_cfg) moved) = Some (JNum 500).
Proof.
  intros s keep moved.
  destruct (release_undoes_transient_reposition sample_cfg 650 keep s
              eq_refl eq_refl) as (Hmoved & _ & Hback & _).
  split; [exact Hmoved | exact Hback].
Defined.

(** [open], a successful [snapToIndex] and a committing [snapToPosition]
    each leave [lastPosition] at the offset they animate to, so a release
    that follows targets the same offset again. *)
Theorem release_repeats_committed_target
    (cfg : Config) (h : option Z) (i p : Z)
    (config : option SnapToPositionConfig) (s : Drawer) :
  target (exec (onPanResponderRelease cfg) (exec (handleOpen cfg h) s))
  = target (exec (handleOpen cfg h) s) /\
  (checkIfAvailable cfg i = true ->
   target (exec (onPanResponderRelease cfg)
             (exec (handleSnapToIndex cfg i) s))
   = target (exec (handleSnapToIndex cfg i) s)) /\
  (modalVisible s = true -> destructure_config config = true ->
   target (exec (onPanResponderRelease cfg)
             (exec (handleSnapToPosition cfg p config) s))
   = target (exec (handleSnapToPosition cfg p config) s)).
Proof.
  unfold exec, target. split; [| split].
  - rewrite handleOpen_spec, onPanResponderRelease_spec. reflexivity.
  - intros Havail.
    rewrite handleSnapToIndex_available by assumption.
    rewrite onPanResponderRelease_spec. reflexivity.
  - intros Hvisible Hreset.
    rewrite handleSnapToPosition_visible by assumption. rewrite Hreset.
    rewrite onPanResponderRelease_spec. reflexivity.
Qed.

Lemma release_repeats_committed_target_witness :
  let s := exec (mount_effect sample_cfg) (initial_state sample_cfg) in
  target (exec (onPanResponderRelease sample_cfg)
            (exec (handleSnapToIndex sample_cfg 2) s)) = Some (JNum 300) /\
  target (exec (onPanResponderRelease sample_cfg)
            (exec (handleSnapToPosition sample_cfg 650 None) s))
  = Some (JNum 150).
Proof.
  intros s.
  destruct (release_repeats_committed_target sample_cfg None 2 650 None s)
    as (_ & Hidx & Hpos).
  split.
  - rewrite (Hidx eq_refl). reflexivity.
  - rewrite (Hpos eq_refl eq_refl). reflexivity.
Defined.

(** ** Invariants over every sequence of events *)

Lemma run_events_invariant
    (cfg : Config) (P : Drawer -> Prop) (es : list Event) (s : Drawer) :
  (forall e s0, In e es -> P s0 -> P (exec (step cfg e) s0)) ->
  P s -> P (run_events cfg es s).
Proof.
  revert s. induction es as [| e es IH]; intros s Hstep Hs; cbn [run_events].
  - assumption.
  - assert (Hnext : P (exec (step cfg e) s)).
    { apply Hstep; [left; reflexivity | assumption]. }
    destruct (unmounts cfg e s); [assumption |].
    apply IH; [| assumption].
    intros e0 s0 Hin. apply Hstep. right. assumption.
Qed.

Lemma numeric_state_intro (s : Drawer) :
  is_number (lastPosition s) = true ->
  is_number (value (animatedHeight s)) = true ->
  match running (animatedHeight s) with
  | Some a => is_number (toValue a)
  | None => true
  end = true ->
  forallb (fun a => is_number (toValue a)) (started (effects s)) = true ->
  numeric_state s = true.
Proof.
  intros H1 H2 H3 H4. unfold numeric_state. rewrite H1, H2, H3, H4.
  reflexivity.
Qed.

Lemma numeric_state_elim (s : Drawer) :
  numeric_state s = true ->
  is_number (lastPosition s) = true /\
  is_number (value (animatedHeight s)) = true /\
  match running (animatedHeight s) with
  | Some a => is_number (toValue a)
  | None => true
  end = true /\
  forallb (fun a => is_number (toValue a)) (started (effects s)) = true.
Proof.
  unfold numeric_state. rewrite !andb_true_iff. tauto.
Qed.

Lemma started_host_call (es : list Effect) (f : HostFn) :
  started (es ++ [HostCall f]) = started es.
Proof. rewrite started_app. simpl. apply app_nil_r. Qed.

Lemma started_console_warn (es : list Effect) (msg : string) :
  started (es ++ [ConsoleWarn msg]) = started es.
Proof. rewrite started_app. simpl. apply app_nil_r. Qed.

Lemma started_state_numeric (cfg : Config) (a : Animation) (s : Drawer) :
  is_number (toValue a) = true ->
  numeric_state s = true ->
  numeric_state (started_state cfg a s) = true.
Proof.
  intros Ha Hs.
  apply numeric_state_elim in Hs. destruct Hs as (Hlast & Hval & _ & Hlog).
  apply numeric_state_intro; unfold started_state;
    cbn [lastPosition animatedHeight value running effects];
    try assumption.
  rewrite !started_app, started_superseded_calls, forallb_app, Hlog.
  simpl. rewrite Ha. reflexivity.
Qed.

Lemma numeric_state_frame (s s' : Drawer) (v : jsnum) :
  is_number v = true ->
  lastPosition s' = v \/ lastPosition s' = lastPosition s ->
  animatedHeight s' = animatedHeight s ->
  started (effects s') = started (effects s) ->
  numeric_state s = true ->
  numeric_state s' = true.
Proof.
  intros Hv Hlast Hanim Hlog Hs.
  apply numeric_state_elim in Hs. destruct Hs as (Hl & Hval & Hrun & Hstarted).
  apply numeric_state_intro; rewrite ?Hanim, ?Hlog; try assumption.
  destruct Hlast as [-> | ->]; assumption.
Qed.

Lemma snapped_numeric (cfg : Config) (i : Z) (s : Drawer) :
  checkIfAvailable cfg i = true ->
  numeric_state s = true ->
  numeric_state (snapped cfg i s) = true.
Proof.
  intros Havail Hs.
  apply numeric_state_elim in Hs. destruct Hs as (_ & Hval & _ & Hlog).
  apply checkIfAvailable_true in Havail. destruct Havail as [_ Hin].
  destruct (js_index_in_range _ _ Hin) as (v & _ & Hidx).
  apply numeric_state_intro; unfold snapped, snap_spring;
    cbn [lastPosition animatedHeight value running effects toValue];
    rewrite ?Hidx; try reflexivity; try assumption.
  rewrite !started_app, started_superseded_calls, forallb_app, Hlog.
  simpl. rewrite ?Hidx. reflexivity.
Qed.

Lemma handleSnapToIndex_numeric (cfg : Config) (i : Z) (s : Drawer) :
  numeric_state s = true ->
  numeric_state (exec (handleSnapToIndex cfg i) s) = true.
Proof.
  intros Hs. unfold exec.
  destruct (handleSnapToIndex_cases cfg i s) as [[_ Hrun] | [Havail Hrun]];
    rewrite Hrun; cbn [snd]; [assumption |].
  apply snapped_numeric; assumption.
Qed.

Lemma animation_end_numeric (cfg : Config) (finished : bool) (s : Drawer) :
  numeric_state s = true ->
  numeric_state (exec (animation_end cfg finished) s) = true.
Proof.
  intros Hs.
  pose proof (numeric_state_elim s Hs) as (Hlast & Hval & Hrun & Hlog).
  unfold animation_end, bind, gets, ret, exec.
  destruct (running (animatedHeight s)) as [a |] eqn:Ha; [| assumption].
  assert (Hnew : is_number (if finished then toValue a
                            else value (animatedHeight s)) = true).
  { destruct finished; assumption. }
  destruct (callback a); run.
  - apply numeric_state_intro;
      cbn [lastPosition animatedHeight value running effects];
      try assumption; reflexivity.
  - destruct finished; [destruct (onOpen cfg) |]; run;
      apply numeric_state_intro;
      cbn [lastPosition animatedHeight value running effects];
      rewrite ?started_host_call; try assumption; reflexivity.
  - destruct (onClose cfg); run;
      apply numeric_state_intro;
      cbn [lastPosition animatedHeight value running effects];
      rewrite ?started_host_call; try assumption; reflexivity.
Qed.

Lemma step_numeric (cfg : Config) (e : Event) (s : Drawer) :
  enableSnapping cfg = false \/ in_range cfg (initialIndex cfg) ->
  numeric_state s = true ->
  numeric_state (exec (step cfg e) s) = true.
Proof.
  intros Hcfg Hs.
  pose proof (numeric_state_elim s Hs) as (Hlast & Hval & Hrun & Hlog).
  destruct e as [h | | i | p c | | dy | | b | b | | finished]; cbn [step].
  - (* open *)
    unfold exec. rewrite handleOpen_spec. cbn [snd].
    assert (Hval' : exists v,
              (if enableSnapping cfg
               then js_index (snapPoints cfg) (initialIndex cfg)
               else JNum match h with
                         | Some a => a
                         | None => initialHeight cfg
                         end) = JNum v).
    { destruct (enableSnapping cfg) eqn:Hon.
      - destruct Hcfg as [Hoff | Hin]; [discriminate |].
        destruct (js_index_in_range _ _ Hin) as (v & _ & Hidx).
        exists v. assumption.
      - eexists. reflexivity. }
    destruct Hval' as (v & Hv). rewrite Hv.
    apply started_state_numeric; [reflexivity |].
    apply (numeric_state_frame s _ (JNum v)); try reflexivity; try assumption.
    left. reflexivity.
  - (* close *)
    unfold exec. rewrite handleClose_spec.
    apply started_state_numeric; [reflexivity | assumption].
  - apply handleSnapToIndex_numeric; assumption.
  - (* snapToPosition *)
    destruct (modalVisible s) eqn:Hvis.
    + unfold exec. rewrite handleSnapToPosition_visible by assumption.
      apply started_state_numeric; [reflexivity |].
      destruct (destructure_config c); [| assumption].
      apply (numeric_state_frame s _ (JNum p)); try reflexivity;
        try assumption.
      left. reflexivity.
    + run. rewrite Hvis. run.
      apply (numeric_state_frame s _ (JNum 0)); try reflexivity;
        try assumption.
      * right. reflexivity.
      * cbn [effects]. apply started_console_warn.
  - (* isOpen *) assumption.
  - (* move *)
    unfold exec.
    destruct (onPanResponderMove_cases cfg dy s)
      as [Hsame | (i & _ & Havail & Hmove)].
    + rewrite Hsame. assumption.
    + rewrite Hmove. apply snapped_numeric; assumption.
  - (* release *)
    unfold exec. rewrite onPanResponderRelease_spec.
    apply started_state_numeric; [| assumption].
    cbn [toValue]. destruct (lastPosition s); try discriminate Hlast.
    reflexivity.
  - (* keyboard change *)
    destruct b; run;
      (apply (numeric_state_frame s _ (JNum 0)); try reflexivity;
       try assumption; right; reflexivity).
  - (* keyboard effect *)
    unfold keyboard_snap_effect, bind, gets, ret, exec.
    destruct b; [| assumption].
    destruct (keyboardTriggerSource s) as [[|] |]; [| | assumption];
      apply handleSnapToIndex_numeric; assumption.
  - (* header press *)
    apply handleSnapToIndex_numeric; assumption.
  - apply animation_end_numeric; assumption.
Qed.

(** When snapping is disabled, or the initial index lies inside the snap
    points, no sequence of events with integer arguments ever produces a
    missing offset: from the first render on, [lastPosition], the animated
    value and the target of every animation ever started are numbers
    (never [undefined] or [NaN]). *)
Theorem offsets_stay_numeric (cfg : Config) (es : list Event) :
  enableSnapping cfg = false \/ in_range cfg (initialIndex cfg) ->
  numeric_state (run_events cfg es (initial_state cfg)) = true.
Proof.
  intros Hcfg.
  apply (run_events_invariant cfg (fun s => numeric_state s = true)).
  - intros e s0 _ Hs0. apply step_numeric; assumption.
  - reflexivity.
Qed.

Lemma offsets_stay_numeric_witness :
  numeric_state
    (run_events sample_cfg
       [EOpen (Some 10); EAnimationEnd true; EPanMove (-90);
        EKeyboardChange true; EKeyboardEffect true; EHeaderPress;
        ESnapToPosition 640 None; EPanRelease; EClose; EOpen None;
        EAnimationEnd true]
       (initial_state sample_cfg)) = true.
Proof.
  apply offsets_stay_numeric. right.
  unfold in_range. vm_compute. split; [discriminate | reflexivity].
Defined.

Lemma closing_started_state (cfg : Config) (a : Animation) (s : Drawer) :
  closing (started_state cfg a s)
  = match callback a with CloseFinished => true | _ => false end.
Proof. reflexivity. Qed.

Lemma closing_snapped (cfg : Config) (i : Z) (s : Drawer) :
  closing (snapped cfg i s) = false.
Proof. reflexivity. Qed.

Lemma animation_end_frame (cfg : Config) (finished : bool) (s : Drawer) :
  let s' := exec (animation_end cfg finished) s in
  currentDrawerIndex s' = currentDrawerIndex s /\
  lastPosition s' = lastPosition s /\
  keyboardTriggerSource s' = keyboardTriggerSource s /\
  running (animatedHeight s') = None /\
  (closing s = true -> modalVisible s' = false /\ currentIndex s' = 0) /\
  (closing s = false ->
   modalVisible s' = modalVisible s /\ currentIndex s' = currentIndex s).
Proof.
  unfold animation_end, bind, gets, ret, exec, closing.
  destruct (running (animatedHeight s)) as [[k t cb] |] eqn:Ha.
  - destruct cb; run.
    + repeat split; try reflexivity; discriminate.
    + destruct finished; [destruct (onOpen cfg) |]; run;
        repeat split; try reflexivity; discriminate.
    + destruct (onClose cfg); run;
        repeat split; try reflexivity; discriminate.
  - cbn [snd]. rewrite Ha. repeat split; try reflexivity; discriminate.
Qed.

Lemma step_indices_in_range (cfg : Config) (e : Event) (s : Drawer) :
  0 < js_length (snapPoints cfg) ->
  in_range cfg (currentIndex s) /\ in_range cfg (currentDrawerIndex s) ->
  in_range cfg (currentIndex (exec (step cfg e) s)) /\
  in_range cfg (currentDrawerIndex (exec (step cfg e) s)).
Proof.
  intros Hlen [Hcur Hdrawn].
  assert (Hzero : in_range cfg 0) by (unfold in_range; lia).
  assert (Hstart : forall a s0,
            in_range cfg (currentIndex s0) ->
            in_range cfg (currentDrawerIndex s0) ->
            in_range cfg (currentIndex (started_state cfg a s0)) /\
            in_range cfg (currentDrawerIndex (started_state cfg a s0))).
  { intros a s0 H1 H2. unfold started_state.
    cbn [currentIndex currentDrawerIndex].
    destruct (closing s0); split; assumption. }
  assert (Hsnap : forall i,
            in_range cfg (currentIndex (exec (handleSnapToIndex cfg i) s)) /\
            in_range cfg
              (currentDrawerIndex (exec (handleSnapToIndex cfg i) s))).
  { intros i. unfold exec.
    destruct (handleSnapToIndex_cases cfg i s) as [[_ Hrun] | [Havail Hrun]];
      rewrite Hrun; cbn [snd]; [split; assumption |].
    apply checkIfAvailable_true in Havail. destruct Havail as [_ Hin].
    unfold snapped. cbn [currentIndex currentDrawerIndex].
    destruct (closing s); split; assumption. }
  destruct e as [h | | i | p c | | dy | | b | b | | finished]; cbn [step].
  - unfold exec. rewrite handleOpen_spec. apply Hstart; assumption.
  - unfold exec. rewrite handleClose_spec. apply Hstart; assumption.
  - apply Hsnap.
  - destruct (modalVisible s) eqn:Hvis.
    + unfold exec. rewrite handleSnapToPosition_visible by assumption.
      apply Hstart; destruct (destructure_config c); assumption.
    + run. rewrite Hvis. run. split; assumption.
  - split; assumption.
  - unfold exec.
    destruct (onPanResponderMove_cases cfg dy s)
      as [Hsame | (i & _ & Havail & Hmove)].
    + rewrite Hsame. split; assumption.
    + rewrite Hmove. apply checkIfAvailable_true in Havail.
      destruct Havail as [_ Hin]. unfold snapped.
      cbn [snd currentIndex currentDrawerIndex].
      destruct (closing s); split; assumption.
  - unfold exec. rewrite onPanResponderRelease_spec. apply Hstart; assumption.
  - destruct b; run; split; assumption.
  - unfold keyboard_snap_effect, bind, gets, ret, exec.
    destruct b; [| split; assumption].
    destruct (keyboardTriggerSource s) as [[|] |]; [| | split; assumption];
      apply Hsnap.
  - apply Hsnap.
  - destruct (animation_end_frame cfg finished s)
      as (Hd & _ & _ & _ & Hclosing & Hquiet).
    rewrite Hd. split; [| assumption].
    destruct (closing s).
    + destruct (Hclosing eq_refl) as [_ ->]. assumption.
    + destruct (Hquiet eq_refl) as [_ ->]. assumption.
Qed.

(** When the initial index lies inside the snap points, both the index ref
    and the rendered index denote an existing snap point after every
    sequence of events with integer arguments: calls that throw, drags past
    either end, keyboard reactions and the reset to 0 by the close callback
    never take them out of [[0, snapPoints.length)]. *)
Theorem indices_stay_in_range (cfg : Config) (es : list Event) :
  in_range cfg (initialIndex cfg) ->
  in_range cfg (currentIndex (run_events cfg es (initial_state cfg))) /\
  in_range cfg (currentDrawerIndex (run_events cfg es (initial_state cfg))).
Proof.
  intros Hinit.
  assert (Hlen : 0 < js_length (snapPoints cfg)).
  { unfold in_range in Hinit. lia. }
  apply (run_events_invariant cfg
           (fun s => in_range cfg (currentIndex s) /\
                     in_range cfg (currentDrawerIndex s))).
  - intros e s0 _ Hs0. apply step_indices_in_range; assumption.
  - split; exact Hinit.
Qed.

Lemma indices_stay_in_range_witness :
  let s := run_events sample_cfg
             [EOpen None; EPanMove (-90); EPanMove (-90); ESnapToIndex 7;
              EClose; EPanMove 90; EAnimationEnd false; EPanMove 90]
             (initial_state sample_cfg) in
  in_range sample_cfg (currentIndex s) /\
  in_range sample_cfg (currentDrawerIndex s).
Proof.
  apply (indices_stay_in_range sample_cfg).
  unfold in_range. vm_compute. split; [discriminate | reflexivity].
Defined.

Lemma step_keeps_hidden (cfg : Config) (e : Event) (s : Drawer) :
  is_open_event e = false ->
  modalVisible s = false ->
  modalVisible (exec (step cfg e) s) = false.
Proof.
  intros He Hs.
  assert (Hstart : forall a s0,
            modalVisible s0 = false ->
            modalVisible (started_state cfg a s0) = false).
  { intros a s0 H0. unfold started_state. cbn [modalVisible].
    destruct (closing s0); [reflexivity | assumption]. }
  assert (Hsnap : forall i,
            modalVisible (exec (handleSnapToIndex cfg i) s) = false).
  { intros i. unfold exec.
    destruct (handleSnapToIndex_cases cfg i s) as [[_ Hrun] | [_ Hrun]];
      rewrite Hrun; cbn [snd]; [assumption |].
    unfold snapped. cbn [modalVisible].
    destruct (closing s); [reflexivity | assumption]. }
  destruct e as [h | | i | p c | | dy | | b | b | | finished]; cbn [step];
    try discriminate He.
  - unfold exec. rewrite handleClose_spec. apply Hstart; assumption.
  - apply Hsnap.
  - run. rewrite Hs. run. assumption.
  - assumption.
  - unfold exec.
    destruct (onPanResponderMove_cases cfg dy s)
      as [Hsame | (i & _ & _ & Hmove)].
    + rewrite Hsame. assumption.
    + rewrite Hmove. cbn [snd]. unfold snapped. cbn [modalVisible].
      destruct (closing s); [reflexivity | assumption].
  - unfold exec. rewrite onPanResponderRelease_spec. apply Hstart; assumption.
  - destruct b; run; assumption.
  - unfold keyboard_snap_effect, bind, gets, ret, exec.
    destruct b; [| assumption].
    destruct (keyboardTriggerSource s) as [[|] |]; [| | assumption];
      apply Hsnap.
  - apply Hsnap.
  - destruct (animation_end_frame cfg finished s)
      as (_ & _ & _ & _ & Hclosing & Hquiet).
    destruct (closing s).
    + apply Hclosing. reflexivity.
    + destruct (Hquiet eq_refl) as [-> _]. assumption.
Qed.

(** Only [open] shows the drawer.  From a hidden drawer, no sequence of
    events without a call of [open] makes it visible: [snapToIndex], drags,
    the header press and the keyboard reactions move the offset and the
    indices of a drawer that stays hidden, and [isOpen()] keeps answering
    false. *)
Theorem hidden_until_open (cfg : Config) (es : list Event) (s : Drawer) :
  forallb (fun e => negb (is_open_event e)) es = true ->
  modalVisible s = false ->
  modalVisible (run_events cfg es s) = false /\
  outcome handleIsOpen (run_events cfg es s) = Returned false.
Proof.
  intros Hes Hs.
  assert (Hhidden : modalVisible (run_events cfg es s) = false).
  { apply (run_events_invariant cfg (fun s0 => modalVisible s0 = false));
      [| assumption].
    intros e s0 Hin Hs0. apply step_keeps_hidden; [| assumption].
    rewrite forallb_forall in Hes. apply negb_true_iff. apply Hes.
    assumption. }
  split; [assumption |].
  unfold outcome, handleIsOpen, gets. cbn [fst]. rewrite Hhidden.
  reflexivity.
Qed.

Lemma hidden_until_open_witness :
  let s := run_events sample_cfg
             [ESnapToIndex 2; EPanMove 90; EHeaderPress;
              ESnapToPosition 400 None; EPanRelease; EAnimationEnd true]
             (initial_state sample_cfg) in
  modalVisible s = false /\ outcome handleIsOpen s = Returned false.
Proof.
  apply (hidden_until_open sample_cfg); reflexivity.
Defined.

Lemma step_keeps_visible (cfg : Config) (e : Event) (s : Drawer) :
  is_close_event e = false ->
  modalVisible s = true /\ closing s = false ->
  modalVisible (exec (step cfg e) s) = true /\
  closing (exec (step cfg e) s) = false.
Proof.
  intros He [Hvis Hquiet].
  assert (Hstart : forall a s0,
            callback a <> CloseFinished ->
            modalVisible s0 = true -> closing s0 = false ->
            modalVisible (started_state cfg a s0) = true /\
            closing (started_state cfg a s0) = false).
  { intros a s0 Ha H0 Hq. rewrite closing_started_state.
    unfold started_state. cbn [modalVisible]. rewrite Hq.
    split; [assumption |].
    destruct (callback a) eqn:Hcb; try reflexivity. congruence. }
  assert (Hsnap : forall i,
            modalVisible (exec (handleSnapToIndex cfg i) s) = true /\
            closing (exec (handleSnapToIndex cfg i) s) = false).
  { intros i. unfold exec.
    destruct (handleSnapToIndex_cases cfg i s) as [[_ Hrun] | [_ Hrun]];
      rewrite Hrun; cbn [snd]; [split; assumption |].
    rewrite closing_snapped. unfold snapped. cbn [modalVisible].
    rewrite Hquiet. split; [assumption | reflexivity]. }
  destruct e as [h | | i | p c | | dy | | b | b | | finished]; cbn [step];
    try discriminate He.
  - unfold exec. rewrite handleOpen_spec. cbn [snd].
    apply Hstart; [discriminate | reflexivity | assumption].
  - apply Hsnap.
  - unfold exec. rewrite handleSnapToPosition_visible by assumption.
    apply Hstart; [discriminate | |];
      destruct (destructure_config c); assumption.
  - split; assumption.
  - unfold exec.
    destruct (onPanResponderMove_cases cfg dy s)
      as [Hsame | (i & _ & _ & Hmove)].
    + rewrite Hsame. split; assumption.
    + rewrite Hmove. cbn [snd].
      rewrite closing_snapped. unfold snapped. cbn [modalVisible].
      rewrite Hquiet. split; [assumption | reflexivity].
  - unfold exec. rewrite onPanResponderRelease_spec.
    apply Hstart; [discriminate | assumption | assumption].
  - destruct b; run; split; assumption.
  - unfold keyboard_snap_effect, bind, gets, ret, exec.
    destruct b; [| split; assumption].
    destruct (keyboardTriggerSource s) as [[|] |]; [| | split; assumption];
      apply Hsnap.
  - apply Hsnap.
  - destruct (animation_end_frame cfg finished s)
      as (_ & _ & _ & Hnone & _ & Hq).
    destruct (Hq Hquiet) as [-> _]. split; [assumption |].
    unfold closing. rewrite Hnone. reflexivity.
Qed.

(** Only [close] hides the drawer.  When [open] is called while no close
    animation is running, the drawer is visible in every state it reaches
    through events that contain no call of [close]: up to the end of the
    sequence, or up to the keyboard effect whose throw unmounts the
    component. *)
Theorem visible_until_close
    (cfg : Config) (h : option Z) (es : list Event) (s : Drawer) :
  closing s = false ->
  forallb (fun e => negb (is_close_event e)) es = true ->
  modalVisible (run_events cfg es (exec (handleOpen cfg h) s)) = true.
Proof.
  intros Hquiet Hes.
  apply (run_events_invariant cfg
           (fun s0 => modalVisible s0 = true /\ closing s0 = false)).
  - intros e s0 Hin Hs0. apply step_keeps_visible; [| assumption].
    rewrite forallb_forall in Hes. apply negb_true_iff. apply Hes.
    assumption.
  - unfold exec. rewrite handleOpen_spec. cbn [snd].
    rewrite closing_started_state. unfold started_state.
    cbn [modalVisible callback].
    replace (closing (exec (setModalVisible true)
                        (exec (set_lastPosition
                                 (if enableSnapping cfg
                                  then js_index (snapPoints cfg)
                                         (initialIndex cfg)
                                  else JNum match h with
                                            | Some x => x
                                            | None => initialHeight cfg
                                            end)) s)))
      with (closing s) by reflexivity.
    rewrite Hquiet. split; reflexivity.
Qed.

Lemma visible_until_close_witness :
  modalVisible
    (run_events sample_cfg
       [EAnimationEnd false; ESnapToIndex 9; EPanMove 90; EPanRelease;
        EKeyboardChange true; EKeyboardEffect true; EAnimationEnd true]
       (exec (handleOpen sample_cfg None) (initial_state sample_cfg)))
  = true.
Proof.
  apply visible_until_close; reflexivity.
Defined.

(** ** Exceptions over all entry points *)

Lemma step_throws_only_in_snap (cfg : Config) (e : Event) (s : Drawer) :
  throws (step cfg e) s = true ->
  exists i,
    (e = ESnapToIndex i \/
     (e = EKeyboardEffect true /\ i = 0) \/
     (e = EKeyboardEffect true /\ i = 1) \/
     (e = EHeaderPress /\ i = 1)) /\
    checkIfAvailable cfg i = false /\
    step cfg e s = handleSnapToIndex cfg i s.
Proof.
  assert (Hsnap : forall i,
            throws (handleSnapToIndex cfg i) s = true ->
            checkIfAvailable cfg i = false).
  { intros i. unfold throws, outcome.
    destruct (handleSnapToIndex_cases cfg i s) as [[Hno Hrun] | [_ Hrun]];
      rewrite Hrun; cbn [fst]; [intros _; assumption | discriminate]. }
  assert (Hstart : forall a s0, throws (animated_start cfg a) s0 = false).
  { intros a s0. unfold throws, outcome. rewrite animated_start_spec.
    reflexivity. }
  destruct e as [h | | i | p c | | dy | | b | b | | finished]; cbn [step].
  - unfold throws, outcome. rewrite handleOpen_spec. discriminate.
  - unfold throws, outcome. rewrite handleClose_spec. discriminate.
  - intros Hthrow. exists i. split; [left; reflexivity |].
    split; [apply Hsnap; assumption | reflexivity].
  - destruct (modalVisible s) eqn:Hvis.
    + unfold throws, outcome.
      rewrite handleSnapToPosition_visible by assumption. discriminate.
    + run. rewrite Hvis. run. discriminate.
  - run. discriminate.
  - unfold throws. rewrite onPanResponderMove_returns. discriminate.
  - unfold throws, outcome. rewrite onPanResponderRelease_spec. discriminate.
  - destruct b; run; discriminate.
  - unfold keyboard_snap_effect, bind, gets, ret, throws, outcome.
    destruct b; [| discriminate].
    destruct (keyboardTriggerSource s) as [[|] |]; [| | discriminate];
      intros Hthrow.
    + exists 1. split; [right; right; left; split; reflexivity |].
      split; [apply Hsnap; assumption | reflexivity].
    + exists 0. split; [right; left; split; reflexivity |].
      split; [apply Hsnap; assumption | reflexivity].
  - intros Hthrow. exists 1. split; [right; right; right; split; reflexivity |].
    split; [apply Hsnap; assumption | reflexivity].
  - unfold throws. rewrite animation_end_returns. discriminate.
Qed.

(** Every entry point is exception safe: an event that throws has changed
    nothing, neither the state nor the effect log. *)
Theorem throwing_event_changes_nothing
    (cfg : Config) (e : Event) (s : Drawer) :
  throws (step cfg e) s = true ->
  exec (step cfg e) s = s.
Proof.
  intros Hthrow.
  destruct (step_throws_only_in_snap cfg e s Hthrow) as (i & _ & Hno & Hstep).
  unfold exec. rewrite Hstep.
  rewrite handleSnapToIndex_unavailable by assumption. reflexivity.
Qed.

Lemma throwing_event_changes_nothing_witness :
  let s := exec (onKeyboardChange true) (initial_state no_snapping_cfg) in
  exec (step no_snapping_cfg (EKeyboardEffect true)) s = s.
Proof.
  intros s. apply throwing_event_changes_nothing. reflexivity.
Defined.

(** With snapping enabled and at least two snap points, the only event that
    can throw is a [snapToIndex] whose index is outside the snap points:
    the keyboard effect, the header press and every other entry point
    return normally. *)
Theorem only_bad_snapToIndex_throws
    (cfg : Config) (e : Event) (s : Drawer) :
  enableSnapping cfg = true ->
  1 < js_length (snapPoints cfg) ->
  throws (step cfg e) s = true ->
  exists i, e = ESnapToIndex i /\ ~ in_range cfg i.
Proof.
  intros Hon Hlen Hthrow.
  destruct (step_throws_only_in_snap cfg e s Hthrow)
    as (i & Hwhich & Hno & _).
  assert (Hout : ~ in_range cfg i).
  { intros Hin.
    assert (Hyes : checkIfAvailable cfg i = true).
    { apply checkIfAvailable_true. split; assumption. }
    congruence. }
  destruct Hwhich as [-> | [[_ ->] | [[_ ->] | [_ ->]]]].
  - exists i. split; [reflexivity | assumption].
  - exfalso. apply Hout. unfold in_range. lia.
  - exfalso. apply Hout. unfold in_range. lia.
  - exfalso. apply Hout. unfold in_range. lia.
Qed.

Lemma only_bad_snapToIndex_throws_witness :
  exists i, ESnapToIndex 3 = ESnapToIndex i /\ ~ in_range sample_cfg i.
Proof.
  apply (only_bad_snapToIndex_throws sample_cfg (ESnapToIndex 3)
           (initial_state sample_cfg)); reflexivity.
Defined.

(** ** Close, reopen and the rendered content *)

(** [close] resets the index ref only, and [open] resets neither index: a
    drawer closed and opened again is visible at the offset [open] always
    uses, its index ref is 0, and its rendered index, hence the content it
    shows, is what it was before the close. *)
Theorem reopen_keeps_rendered_index
    (cfg : Config) (finished : bool) (h : option Z) (s : Drawer) :
  let closed := exec (animation_end cfg finished) (exec (handleClose cfg) s) in
  let reopened := exec (handleOpen cfg h) closed in
  modalVisible closed = false /\
  modalVisible reopened = true /\
  currentIndex reopened = 0 /\
  currentDrawerIndex reopened = currentDrawerIndex s /\
  render_content reopened = render_content s /\
  lastPosition closed = lastPosition s /\
  lastPosition reopened = lastPosition (exec (handleOpen cfg h) s) /\
  target reopened = target (exec (handleOpen cfg h) s).
Proof.
  intros closed reopened.
  destruct (animation_end_frame cfg finished (exec (handleClose cfg) s))
    as (Hdrawn & Hlast & _ & Hnone & Hclosing & _).
  assert (Hc : closing (exec (handleClose cfg) s) = true).
  { unfold exec. rewrite handleClose_spec. reflexivity. }
  destruct (Hclosing Hc) as [Hvis Hcur]. clear Hclosing.
  fold closed in Hdrawn, Hlast, Hnone, Hvis, Hcur.
  assert (Hquiet : closing closed = false).
  { unfold closing. rewrite Hnone. reflexivity. }
  assert (Hs1 : currentDrawerIndex (exec (handleClose cfg) s)
                = currentDrawerIndex s /\
                lastPosition (exec (handleClose cfg) s) = lastPosition s).
  { unfold exec. rewrite handleClose_spec. split; reflexivity. }
  destruct Hs1 as [Hd1 Hl1].
  subst reopened. clearbody closed. unfold target, exec.
  rewrite !handleOpen_spec. cbn [snd]. unfold render_content.
  unfold started_state.
  cbn [modalVisible currentIndex currentDrawerIndex lastPosition
       animatedHeight running].
  change (closing (exec (setModalVisible true)
                     (exec (set_lastPosition
                              (if enableSnapping cfg
                               then js_index (snapPoints cfg)
                                      (initialIndex cfg)
                               else JNum match h with
                                         | Some x => x
                                         | None => initialHeight cfg
                                         end)) closed)))
    with (closing closed).
  rewrite Hquiet. run. rewrite Hdrawn, Hd1, Hlast, Hl1.
  repeat split; try reflexivity; assumption.
Qed.

(** The content shown follows [snapToIndex]: after a call that succeeds the
    header is shown exactly when the index is 0, and a call that throws
    leaves the content as it was. *)
Theorem content_follows_snap_index (cfg : Config) (i : Z) (s : Drawer) :
  render_content (exec (handleSnapToIndex cfg i) s)
  = if checkIfAvailable cfg i
    then (if i =? 0 then Header else Children)
    else render_content s.
Proof.
  unfold exec.
  destruct (handleSnapToIndex_cases cfg i s) as [[Hno Hrun] | [Hyes Hrun]];
    rewrite Hrun; [rewrite Hno | rewrite Hyes]; reflexivity.
Qed.

(** Pressing the chevron of the header calls [snapToIndex(1)].  With
    snapping enabled and at least two snap points it returns, the children
    replace the header and [lastPosition] is [snapPoints[1]]; the index ref
    is 1, unless a close animation was running, whose callback leaves it at
    0 and hides the drawer.  Otherwise the press throws and changes
    nothing. *)
Theorem header_press_reveals_children (cfg : Config) (s : Drawer) :
  let s' := exec (onHeaderPress cfg) s in
  (enableSnapping cfg = true /\ 1 < js_length (snapPoints cfg) ->
   outcome (onHeaderPress cfg) s = Returned tt /\
   render_content s' = Children /\
   currentDrawerIndex s' = 1 /\
   lastPosition s' = js_index (snapPoints cfg) 1 /\
   currentIndex s' = (if closing s then 0 else 1) /\
   modalVisible s' = (if closing s then false else modalVisible s)) /\
  (enableSnapping cfg = false \/ js_length (snapPoints cfg) <= 1 ->
   throws (onHeaderPress cfg) s = true /\ s' = s).
Proof.
  unfold onHeaderPress, throws, outcome, exec. split.
  - intros [Hon Hlen].
    rewrite handleSnapToIndex_available.
    + repeat split; reflexivity.
    + apply checkIfAvailable_true. split; [assumption |].
      unfold in_range. lia.
  - intros Hbad.
    rewrite handleSnapToIndex_unavailable.
    + split; reflexivity.
    + apply checkIfAvailable_false. destruct Hbad as [Hoff | Hlen];
        [left; assumption | right; right; lia].
Qed.

Lemma header_press_reveals_children_witness :
  let s := exec (handleSnapToIndex sample_cfg 0) (initial_state sample_cfg) in
  render_content s = Header /\
  render_content (exec (onHeaderPress sample_cfg) s) = Children /\
  currentIndex (exec (onHeaderPress sample_cfg) s) = 1 /\
  currentIndex (exec (onHeaderPress sample_cfg) closing_sample) = 0 /\
  exec (onHeaderPress single_point_cfg) (initial_state single_point_cfg)
  = initial_state single_point_cfg.
Proof.
  intros s.
  destruct (header_press_reveals_children sample_cfg s) as [Hok _].
  destruct (header_press_reveals_children sample_cfg closing_sample)
    as [Hclosing _].
  destruct (header_press_reveals_children single_point_cfg
              (initial_state single_point_cfg)) as [_ Hbad].
  assert (Hcfg : enableSnapping sample_cfg = true /\
                 1 < js_length (snapPoints sample_cfg)).
  { split; reflexivity. }
  destruct (Hok Hcfg) as (_ & Hchildren & _ & _ & Hcur & _).
  destruct (Hclosing Hcfg) as (_ & _ & _ & _ & Hcur' & _).
  split; [reflexivity |]. split; [exact Hchildren |].
  split; [exact Hcur |]. split; [exact Hcur' |].
  apply Hbad. right. vm_compute. discriminate.
Defined.

(** When the open animation ends with [finished] true, the offset rests at
    its target and [onOpen], when given, has been called once.  [isOpen()]
    then answers true, unless [open] was called while a close animation was
    running: its callback ran after [open] had set visibility, and
    [isOpen()] answers false. *)
Theorem open_completes (cfg : Config) (h : option Z) (s : Drawer) :
  let s1 := exec (handleOpen cfg h) s in
  let s2 := exec (animation_end cfg true) s1 in
  outcome (handleIsOpen) s2 = Returned (negb (closing s)) /\
  Some (value (animatedHeight s2)) = target s1 /\
  host_calls (effects s2) =
    host_calls (effects s1) ++
    match onOpen cfg with Some f => [f] | None => [] end.
Proof.
  intros s1 s2. subst s2 s1. unfold exec, target.
  rewrite handleOpen_spec. cbn [snd]. unfold started_state.
  destruct (onOpen cfg) as [f |] eqn:HonOpen; run; rewrite HonOpen; run;
    rewrite ?host_calls_app; cbn [host_calls]; rewrite ?app_nil_r;
    (split; [unfold closing; cbn [animatedHeight];
             destruct (running (animatedHeight s)) as [[k t []] |];
             reflexivity |]);
    split; reflexivity.
Qed.

(** A cancelled open animation calls nothing: when the open animation ends
    with [finished] false, [onOpen] is not called and no other effect
    happens; visibility, [lastPosition] and the index ref are as [open]
    left them. *)
Theorem open_cancelled_calls_nothing
    (cfg : Config) (h : option Z) (s : Drawer) :
  let s1 := exec (handleOpen cfg h) s in
  let s2 := exec (animation_end cfg false) s1 in
  outcome (animation_end cfg false) s1 = Returned tt /\
  effects s2 = effects s1 /\
  host_calls (effects s2) = host_calls (effects s1) /\
  modalVisible s2 = modalVisible s1 /\
  modalVisible s2 = negb (closing s) /\
  lastPosition s2 = lastPosition s1 /\
  currentIndex s2 = currentIndex s1 /\
  currentIndex s2 = (if closing s then 0 else currentIndex s) /\
  running (animatedHeight s2) = None.
Proof.
  intros s1 s2. subst s2 s1. unfold outcome, exec.
  rewrite handleOpen_spec. cbn [snd]. unfold started_state. run.
  repeat split; try reflexivity;
    unfold closing; cbn [animatedHeight];
    destruct (running (animatedHeight s)) as [[k t []] |]; reflexivity.
Qed.

(** [enableSnapping] defaults to true, so unless the caller passes
    [enableSnapping: false] the height given to [open] is dead: any two
    heights, given or omitted, lead to the same state. *)
Theorem open_height_ignored_by_default
    (K : Constants) (props : BottomDrawerProps) (h h' : option Z)
    (s : Drawer) :
  p_enableSnapping props <> Some false ->
  handleOpen (destructure K props) h s = handleOpen (destructure K props) h' s.
Proof.
  intros Hdefault.
  assert (Hon : enableSnapping (destructure K props) = true).
  { unfold destructure, or_default. cbn [enableSnapping].
    destruct (p_enableSnapping props) as [[|] |];
      [reflexivity | congruence | reflexivity]. }
  remember (destructure K props) as cfg eqn:Hcfg. clear Hcfg.
  rewrite !handleOpen_spec. rewrite Hon. reflexivity.
Qed.

Lemma open_height_ignored_by_default_witness :
  handleOpen sample_cfg (Some 10) (initial_state sample_cfg)
  = handleOpen sample_cfg (Some 999) (initial_state sample_cfg).
Proof.
  apply (open_height_ignored_by_default sample_consts sample_props).
  discriminate.
Defined.

(** ** The keyboard, from show to hide *)

Lemma keyboard_show_snapped (cfg : Config) (s : Drawer) :
  checkIfAvailable cfg 0 = true ->
  run_events cfg [EKeyboardChange true; EKeyboardEffect true] s
  = snapped cfg 0 (exec (onKeyboardChange true) s).
Proof.
  intros Havail. cbn [run_events step unmounts].
  remember (exec (onKeyboardChange true) s) as s1 eqn:Hs1.
  assert (Hsrc : keyboardTriggerSource s1 = Some External).
  { subst s1. reflexivity. }
  assert (Hrun : keyboard_snap_effect cfg true s1
                 = (Returned tt, snapped cfg 0 s1)).
  { unfold keyboard_snap_effect, bind, gets, ret.
    rewrite Hsrc. apply handleSnapToIndex_available. assumption. }
  unfold throws, outcome, exec. rewrite Hrun. reflexivity.
Qed.

(** Since the focus test always answers false, a keyboard that shows always
    collapses a drawer that has snap points: the callback followed by the
    effect puts both indices at 0, shows the header, and animates to the
    first snap point, whatever the index was.  Visibility is unchanged,
    unless a close animation was running: the snap stops it and its
    callback hides the drawer. *)
Theorem keyboard_show_collapses (cfg : Config) (s : Drawer) :
  enableSnapping cfg = true ->
  0 < js_length (snapPoints cfg) ->
  let s' := run_events cfg [EKeyboardChange true; EKeyboardEffect true] s in
  currentIndex s' = 0 /\
  currentDrawerIndex s' = 0 /\
  render_content s' = Header /\
  lastPosition s' = js_index (snapPoints cfg) 0 /\
  target s' = Some (js_sub (JNum (screenHeight (consts cfg)))
                           (js_index (snapPoints cfg) 0)) /\
  modalVisible s' = (if closing s then false else modalVisible s).
Proof.
  intros Hon Hlen.
  assert (Havail : checkIfAvailable cfg 0 = true).
  { apply checkIfAvailable_true. split; [assumption |].
    unfold in_range. lia. }
  intros s'. subst s'. rewrite keyboard_show_snapped by assumption.
  unfold snapped, target.
  cbn [currentIndex currentDrawerIndex lastPosition modalVisible
       animatedHeight running option_map].
  replace (closing (exec (onKeyboardChange true) s)) with (closing s)
    by reflexivity.
  split; [destruct (closing s); reflexivity |].
  repeat split; reflexivity.
Qed.

Lemma keyboard_show_collapses_witness :
  let s := exec (handleSnapToIndex sample_cfg 2) (initial_state sample_cfg) in
  let s' := run_events sample_cfg
              [EKeyboardChange true; EKeyboardEffect true] s in
  currentIndex s = 2 /\ currentIndex s' = 0 /\ lastPosition s' = JNum 100.
Proof.
  intros s.
  assert (Hlen : 0 < js_length (snapPoints sample_cfg)) by reflexivity.
  destruct (keyboard_show_collapses sample_cfg s eq_refl Hlen)
    as (Hcur & _ & _ & Hlast & _).
  split; [reflexivity |]. split; [exact Hcur | exact Hlast].
Defined.

Lemma keyboard_hide_step (cfg : Config) (keyboardOpen : bool) (s : Drawer) :
  run_events cfg [EKeyboardChange false; EKeyboardEffect keyboardOpen] s
  = exec (onKeyboardChange false) s.
Proof.
  destruct keyboardOpen; reflexivity.
Qed.

(** The handlers of this file never undo that collapse: after the keyboard
    hides, the trigger source is cleared and the effect does nothing, so
    the drawer is still at index 0 and at the first snap point. *)
Theorem keyboard_hide_does_not_restore
    (cfg : Config) (keyboardOpen : bool) (s : Drawer) :
  enableSnapping cfg = true ->
  0 < js_length (snapPoints cfg) ->
  let shown := run_events cfg [EKeyboardChange true; EKeyboardEffect true] s in
  let hidden :=
    run_events cfg [EKeyboardChange false; EKeyboardEffect keyboardOpen]
      shown in
  keyboardTriggerSource hidden = None /\
  currentIndex hidden = 0 /\
  currentDrawerIndex hidden = 0 /\
  lastPosition hidden = js_index (snapPoints cfg) 0 /\
  effects hidden = effects shown.
Proof.
  intros Hon Hlen.
  assert (Havail : checkIfAvailable cfg 0 = true).
  { apply checkIfAvailable_true. split; [assumption |].
    unfold in_range. lia. }
  intros shown hidden. subst shown hidden.
  rewrite keyboard_show_snapped by assumption.
  rewrite keyboard_hide_step.
  remember (exec (onKeyboardChange true) s) as s1 eqn:Hs1. clear Hs1.
  unfold snapped. run.
  split; [reflexivity |].
  split; [destruct (closing s1); reflexivity |].
  repeat split; reflexivity.
Qed.

Lemma keyboard_hide_does_not_restore_witness :
  let s := exec (handleSnapToIndex sample_cfg 2) (initial_state sample_cfg) in
  let hidden :=
    run_events sample_cfg
      [EKeyboardChange true; EKeyboardEffect true;
       EKeyboardChange false; EKeyboardEffect false] s in
  currentIndex s = 2 /\ currentIndex hidden = 0 /\
  keyboardTriggerSource hidden = None.
Proof.
  intros s.
  assert (Hlen : 0 < js_length (snapPoints sample_cfg)) by reflexivity.
  destruct (keyboard_hide_does_not_restore sample_cfg false s eq_refl Hlen)
    as (Hsrc & Hcur & _).
  split; [reflexivity |]. split; [exact Hcur | exact Hsrc].
Defined.
